(** * Nebula-X brand assets: a model of [generate_svgs.py]

    The script composes literal coordinate lists into SVG path strings,
    wraps them in a document template and writes nine files.  The model
    follows the script function by function:

    - Python numbers ([int] and binary64 [float]) with their mixed
      arithmetic, [int()] and the text that an f-string produces for them;
    - the path expression ["M " + " L ".join([...]) + " Z"];
    - [get_n_mark_path], [get_wordmark_paths], [create_svg],
      [generate_assets];
    - a small file-system world against which the I/O of the script runs. *)

From Stdlib Require Import ZArith Ascii String List Lia.
From Stdlib Require Import Floats.SpecFloat.
From stdpp Require Import gmap strings list fin_maps.

Local Open Scope string_scope.
Local Open Scope list_scope.
Local Open Scope Z_scope.

(** ** Exceptions and fallible results *)

Inductive exn :=
  | OverflowError      (* int too large to convert to float; int(inf) *)
  | ValueError         (* int(nan) *)
  | KeyError (k : string)
  | FileExistsError (p : string)
  | FileNotFoundError (p : string)
  | IsADirectoryError (p : string)
  | NotADirectoryError (p : string)
  | PermissionError (p : string)
  | NoSpaceError (p : string).

Inductive result (A : Type) :=
  | Ok (a : A)
  | Err (e : exn).
Arguments Ok {A} a.
Arguments Err {A} e.

Definition rbind {A B} (r : result A) (k : A -> result B) : result B :=
  match r with
  | Ok a => k a
  | Err e => Err e
  end.

Declare Scope result_scope.
Delimit Scope result_scope with result.
Notation "'try' x ':=' r 'in' k" := (rbind r (fun x => k))
  (at level 10, x name, r at level 100, k at level 200) : result_scope.

Fixpoint mapM {A B} (f : A -> result B) (l : list A) : result (list B) :=
  match l with
  | [] => Ok []
  | a :: l' =>
      match f a with
      | Ok b => match mapM f l' with
                | Ok bs => Ok (b :: bs)
                | Err e => Err e
                end
      | Err e => Err e
      end
  end.

(** ** Python numbers *)

Module Py.

(** binary64: 53 bits of precision, infinities at exponent 1024. *)
Definition prec : Z := 53.
Definition emax : Z := 1024.

Definition float := spec_float.

Definition fmul : float -> float -> float := SFmul prec emax.
Definition fadd : float -> float -> float := SFadd prec emax.
Definition fdiv : float -> float -> float := SFdiv prec emax.

(** [float(z)]: the nearest binary64 (ties to even); Python raises
    [OverflowError] where the rounding leaves the finite range. *)
Definition float_of_int (z : Z) : result float :=
  match binary_normalize prec emax z 0 false with
  | S754_infinity _ => Err OverflowError
  | f => Ok f
  end.

(** A literal [n/d] with [n] and [d] exactly representable: the division is
    correctly rounded, hence the value the Python parser gives the decimal
    literal (0.8 is [8/10], 0.5 is [5/10], ...). *)
Definition float_lit (n d : Z) : float :=
  fdiv (binary_normalize prec emax n 0 false)
       (binary_normalize prec emax d 0 false).

(** [int(f)]: truncation towards zero. *)
Definition int_of_float (f : float) : result Z :=
  match f with
  | S754_zero _ => Ok 0
  | S754_infinity _ => Err OverflowError
  | S754_nan => Err ValueError
  | S754_finite s m e =>
      let a := if 0 <=? e then Z.pos m * 2 ^ e
               else Z.pos m / 2 ^ (- e) in
      Ok (if s then - a else a)
  end.

Inductive num :=
  | PyInt (z : Z)
  | PyFloat (f : float).

Definition to_float (v : num) : result float :=
  match v with
  | PyInt z => float_of_int z
  | PyFloat f => Ok f
  end.

(** [a * b] and [a + b]: exact on two ints, otherwise both operands are
    taken to float first. *)
Definition mul (a b : num) : result num :=
  match a, b with
  | PyInt x, PyInt y => Ok (PyInt (x * y))
  | _, _ =>
      (try fa := to_float a in try fb := to_float b in Ok (PyFloat (fmul fa fb)))%result
  end.

Definition add (a b : num) : result num :=
  match a, b with
  | PyInt x, PyInt y => Ok (PyInt (x + y))
  | _, _ =>
      (try fa := to_float a in try fb := to_float b in Ok (PyFloat (fadd fa fb)))%result
  end.

(** [int(v)] *)
Definition int (v : num) : result Z :=
  match v with
  | PyInt z => Ok z
  | PyFloat f => int_of_float f
  end.

(** *** Text of numbers *)

Definition digit_char (d : Z) : ascii :=
  ascii_of_nat (48 + Z.to_nat (d mod 10)).

(** The decimal digits of a non-negative integer, most significant first. *)
Fixpoint digits_fuel (fuel : nat) (n : Z) (acc : string) : string :=
  match fuel with
  | O => acc
  | S fuel' =>
      let acc' := String (digit_char n) acc in
      if n <? 10 then acc' else digits_fuel fuel' (n / 10) acc'
  end.

Definition digits (n : Z) : string :=
  digits_fuel (S (Z.to_nat (Z.log2 n))) n EmptyString.

(** [str(z)] *)
Definition str_int (z : Z) : string :=
  if z <? 0 then "-" +:+ digits (- z) else digits z.

Fixpoint zeros (n : nat) : string :=
  match n with
  | O => EmptyString
  | S n' => String "0" (zeros n')
  end.

Fixpoint drop_chars (n : nat) (s : string) : string :=
  match n, s with
  | O, _ => s
  | S n', String _ s' => drop_chars n' s'
  | S _, EmptyString => EmptyString
  end.

Fixpoint take_chars (n : nat) (s : string) : string :=
  match n, s with
  | O, _ => EmptyString
  | S n', String c s' => String c (take_chars n' s')
  | S _, EmptyString => EmptyString
  end.

(** Shortest decimal that reads back as the float [m * 2^e] ([m > 0]):
    the result [(c, q)] stands for [c * 10^q].

    The decimals that read back as the float are those of the interval
    between the midpoints to its two neighbours, the end points included
    when [m] is even.  All quantities are kept as integers over the common
    denominator [2^max(0,2-e) * 10^max(0,-q)]. *)
Section Shortest.
Variables (m e : Z).

(** the float and the two midpoints, in units of [2^(e-2)] *)
Definition at_binade_start : bool :=
  (m =? 2 ^ (prec - 1)) && (3 - emax - prec <? e).
Definition mid : Z := 4 * m.
Definition lo : Z := if at_binade_start then 4 * m - 1 else 4 * m - 2.
Definition hi : Z := 4 * m + 2.
Definition closed : bool := Z.even m.

Definition try_exponent (q : Z) : option Z :=
  let e2 := e - 2 in
  let unit := 10 ^ Z.max 0 q * 2 ^ Z.max 0 (- e2) in
  let scale := 2 ^ Z.max 0 e2 * 10 ^ Z.max 0 (- q) in
  let nlo := lo * scale in
  let nhi := hi * scale in
  let nmid := mid * scale in
  (* least and greatest multiple of [10^q] inside the interval *)
  let cmin := if closed then - ((- nlo) / unit) else nlo / unit + 1 in
  let cmax := if closed then nhi / unit else - ((- nhi) / unit) - 1 in
  if (cmin <=? cmax) && (1 <=? cmax) then
    (* the one nearest to the float, an even one on a tie *)
    let down := nmid / unit in
    let rest := 2 * (nmid mod unit) in
    let near := if (unit <? rest) || ((rest =? unit) && Z.odd down)
                then down + 1 else down in
    Some (Z.max cmin (Z.min cmax near))
  else None.

Fixpoint search (fuel : nat) (q : Z) : Z * Z :=
  match fuel with
  | O => (m * 2 ^ Z.max 0 e, 0)
  | S fuel' =>
      match try_exponent q with
      | Some c => (c, q)
      | None => search fuel' (q - 1)
      end
  end.

Definition shortest : Z * Z :=
  let bits := Z.log2 hi + (e - 2) + 1 in
  search 40 ((bits * 30103) / 100000 + 1).
End Shortest.

(** [repr] of a finite non-negative float from its shortest digits [ds]
    and the position [decpt] of the decimal point: exponent notation when
    [decpt <= -4] or [decpt > 16]. *)
Definition exponent_text (x : Z) : string :=
  let a := Z.abs x in
  (if x <? 0 then "-" else "+") +:+ (if a <? 10 then "0" else EmptyString) +:+ digits a.

Definition layout (ds : string) (decpt : Z) : string :=
  let n := Z.of_nat (String.length ds) in
  if (decpt <=? -4) || (16 <? decpt) then
    take_chars 1 ds +:+
    (if 1 <? n then "." +:+ drop_chars 1 ds else EmptyString) +:+
    "e" +:+ exponent_text (decpt - 1)
  else if decpt <=? 0 then
    "0." +:+ zeros (Z.to_nat (- decpt)) +:+ ds
  else if n <=? decpt then
    ds +:+ zeros (Z.to_nat (decpt - n)) +:+ ".0"
  else
    take_chars (Z.to_nat decpt) ds +:+ "." +:+ drop_chars (Z.to_nat decpt) ds.

(** [repr(f)], which is also what [str(f)] and an f-string field give. *)
Definition repr_float (f : float) : string :=
  match f with
  | S754_zero s => if s then "-0.0" else "0.0"
  | S754_infinity s => if s then "-inf" else "inf"
  | S754_nan => "nan"
  | S754_finite s m e =>
      let '(c, q) := shortest (Z.pos m) e in
      let ds := digits c in
      (if s then "-" else EmptyString) +:+
      layout ds (Z.of_nat (String.length ds) + q)
  end.

(** The text of [f"{v}"]. *)
Definition format (v : num) : string :=
  match v with
  | PyInt z => str_int z
  | PyFloat f => repr_float f
  end.

End Py.

(** ** Strings *)

(** The double quote character, and a helper for the literals of the
    script: in its argument an apostrophe stands for a double quote (the
    generated documents contain no apostrophe). *)
Definition dquote : ascii := ascii_of_nat 34.
Definition newline : ascii := ascii_of_nat 10.
Definition nl : string := String newline EmptyString.

Fixpoint dq (s : string) : string :=
  match s with
  | EmptyString => EmptyString
  | String c s' =>
      String (if Ascii.eqb c (ascii_of_nat 39) then dquote else c) (dq s')
  end.

(** [sep.join(l)] *)
Fixpoint join (sep : string) (l : list string) : string :=
  match l with
  | [] => EmptyString
  | [x] => x
  | x :: l' => x +:+ sep +:+ join sep l'
  end.

(** ** Configuration *)

Definition OUTPUT_DIR : string := "nebula-x-assets".

Definition COLORS : list (string * string) :=
  [ ("Deep Space", "#0B0D17");
    ("Space Navy", "#111827");
    ("Nebula Purple", "#7C3AED");
    ("Cosmic Cyan", "#06B6D4");
    ("Stellar Gold", "#F59E0B");
    ("Starlight White", "#F1F5F9");
    ("Aurora Green", "#10B981");
    ("Mars Red", "#EF4444") ].

Fixpoint assoc (k : string) (d : list (string * string)) : option string :=
  match d with
  | [] => None
  | (k', v) :: d' => if String.eqb k k' then Some v else assoc k d'
  end.

(** [COLORS[k]] *)
Definition color (k : string) : result string :=
  match assoc k COLORS with
  | Some v => Ok v
  | None => Err (KeyError k)
  end.

(** ** Polygons and the path expression *)

Import Py.

Definition point : Type := num * num.
Definition pt (x y : Z) : point := (PyInt x, PyInt y).

(** [f"{p[0]*scale + x},{p[1]*scale + y}"] *)
Definition coord (scale x y : num) (p : point) : result string :=
  (try a := mul (fst p) scale in
   try px := add a x in
   try b := mul (snd p) scale in
   try py := add b y in
   Ok (format px +:+ "," +:+ format py))%result.

(** [[f"..." for p in points]] *)
Definition coords (points : list point) (scale x y : num) : result (list string) :=
  mapM (coord scale x y) points.

(** ["M " + " L ".join([... for p in points]) + " Z"], the expression that
    every outline of the script is built with. *)
Definition path_d (points : list point) (scale x y : num) : result string :=
  (try cs := coords points scale x y in
   Ok ("M " +:+ join " L " cs +:+ " Z"))%result.

(** *** [get_n_mark_path] *)

Definition n_points : list point :=
  [ pt 0 100; pt 0 0; pt 30 0; pt 70 70; pt 70 0; pt 100 0; pt 100 100;
    pt 70 100; pt 30 30; pt 30 100 ].

Definition get_n_mark_path (scale offset_x offset_y : num) : result string :=
  path_d n_points scale offset_x offset_y.

(** *** [get_wordmark_paths] *)

Definition pts_e : list point :=
  [ pt 0 0; pt 80 0; pt 80 20; pt 20 20; pt 20 40; pt 60 40; pt 60 60;
    pt 20 60; pt 20 80; pt 80 80; pt 80 100; pt 0 100 ].
Definition pts_b_out : list point :=
  [ pt 0 0; pt 60 0; pt 80 20; pt 80 40; pt 60 50; pt 80 60; pt 80 80;
    pt 60 100; pt 0 100 ].
Definition pts_b_in1 : list point :=
  [ pt 20 20; pt 50 20; pt 60 30; pt 50 40; pt 20 40 ].
Definition pts_b_in2 : list point :=
  [ pt 20 60; pt 50 60; pt 60 70; pt 50 80; pt 20 80 ].
Definition pts_u : list point :=
  [ pt 0 0; pt 20 0; pt 20 80; pt 60 80; pt 60 0; pt 80 0; pt 80 100; pt 0 100 ].
Definition pts_l : list point :=
  [ pt 0 0; pt 20 0; pt 20 80; pt 80 80; pt 80 100; pt 0 100 ].
Definition pts_a_out : list point :=
  [ pt 40 0; pt 60 0; pt 100 100; pt 80 100; pt 70 70; pt 30 70; pt 20 100;
    pt 0 100 ].
Definition pts_a_in : list point :=
  [ pt 40 50; pt 60 50; pt 50 20 ].
Definition pts_x : list point :=
  [ pt 0 0; pt 25 0; pt 50 40; pt 75 0; pt 100 0; pt 65 50; pt 100 100;
    pt 75 100; pt 50 60; pt 25 100; pt 0 100; pt 35 50 ].

(** [f'<path d="{d}" fill="currentColor" />'] and its even-odd variant *)
Definition path_element (d : string) : string :=
  dq "<path d='" +:+ d +:+ dq "' fill='currentColor' />".
Definition path_element_evenodd (d : string) : string :=
  dq "<path d='" +:+ d +:+ dq "' fill-rule='evenodd' fill='currentColor' />".

(** [x += w * scale] *)
Definition advance (x scale : num) (w : Z) : result num :=
  (try a := mul (PyInt w) scale in add x a)%result.

(** [d += " M " + " L ".join([...]) + " Z"] *)
Definition add_subpath (d : string) (points : list point) (scale x y : num)
  : result string :=
  (try cs := coords points scale x y in
   Ok (d +:+ " M " +:+ join " L " cs +:+ " Z"))%result.

Definition get_wordmark_paths (scale start_x start_y : num)
  : result (string * num) :=
  (let paths : list string := [] in
   let x := start_x in
   (* N *)
   try d_n := get_n_mark_path scale x start_y in
   let paths := paths ++ [path_element d_n] in
   try x := advance x scale 120 in
   (* E *)
   try d_e := path_d pts_e scale x start_y in
   let paths := paths ++ [path_element d_e] in
   try x := advance x scale 100 in
   (* B *)
   try d_b := path_d pts_b_out scale x start_y in
   try d_b := add_subpath d_b pts_b_in1 scale x start_y in
   try d_b := add_subpath d_b pts_b_in2 scale x start_y in
   let paths := paths ++ [path_element_evenodd d_b] in
   try x := advance x scale 100 in
   (* U *)
   try d_u := path_d pts_u scale x start_y in
   let paths := paths ++ [path_element d_u] in
   try x := advance x scale 100 in
   (* L *)
   try d_l := path_d pts_l scale x start_y in
   let paths := paths ++ [path_element d_l] in
   try x := advance x scale 100 in
   (* A *)
   try d_a := path_d pts_a_out scale x start_y in
   try d_a := add_subpath d_a pts_a_in scale x start_y in
   let paths := paths ++ [path_element_evenodd d_a] in
   try x := advance x scale 120 in
   (* Space *)
   try x := advance x scale 40 in
   (* X *)
   try d_x := path_d pts_x scale x start_y in
   let paths := paths ++ [path_element d_x] in
   try x := advance x scale 120 in
   Ok (join EmptyString paths, x))%result.

(** ** Input and output

    The script talks to its environment through five calls.  A program is
    the tree of these calls; exceptions have no handler anywhere in the
    script, so [Raise] ends a program. *)

Inductive prog (A : Type) : Type :=
  | Ret (a : A)
  | Raise (e : exn)
  | PathExists (p : string) (k : bool -> prog A)   (* os.path.exists *)
  | Makedirs (p : string) (k : prog A)             (* os.makedirs *)
  | OpenW (p : string) (k : prog A)                (* open(p, "w") *)
  | FWrite (p : string) (data : string) (k : prog A)  (* f.write *)
  | Print (line : string) (k : prog A).            (* print *)
Arguments Ret {A} a.
Arguments Raise {A} e.
Arguments PathExists {A} p k.
Arguments Makedirs {A} p k.
Arguments OpenW {A} p k.
Arguments FWrite {A} p data k.
Arguments Print {A} line k.

Fixpoint pbind {A B} (m : prog A) (f : A -> prog B) : prog B :=
  match m with
  | Ret a => f a
  | Raise e => Raise e
  | PathExists p k => PathExists p (fun b => pbind (k b) f)
  | Makedirs p k => Makedirs p (pbind k f)
  | OpenW p k => OpenW p (pbind k f)
  | FWrite p data k => FWrite p data (pbind k f)
  | Print line k => Print line (pbind k f)
  end.

Definition lift {A} (r : result A) : prog A :=
  match r with
  | Ok a => Ret a
  | Err e => Raise e
  end.

Declare Scope prog_scope.
Delimit Scope prog_scope with prog.
Notation "'try' x ':=' r 'in' k" := (pbind (lift r) (fun x => k))
  (at level 10, x name, r at level 100, k at level 200) : prog_scope.
Notation "'call' m 'then' k" := (pbind m (fun _ => k))
  (at level 10, m at level 100, k at level 200) : prog_scope.

Definition os_path_exists (p : string) : prog bool := PathExists p Ret.
Definition os_makedirs (p : string) : prog unit := Makedirs p (Ret tt).
Definition open_w (p : string) : prog unit := OpenW p (Ret tt).
Definition f_write (p data : string) : prog unit := FWrite p data (Ret tt).
Definition print (line : string) : prog unit := Print line (Ret tt).

(** *** Paths *)

Definition starts_with_slash (s : string) : bool :=
  match s with
  | String c _ => Ascii.eqb c "/"
  | EmptyString => false
  end.

Fixpoint ends_with_slash (s : string) : bool :=
  match s with
  | EmptyString => false
  | String c EmptyString => Ascii.eqb c "/"
  | String _ s' => ends_with_slash s'
  end.

(** [os.path.join(a, b)] on a POSIX system *)
Definition os_path_join (a b : string) : string :=
  if starts_with_slash b then b
  else if String.eqb a EmptyString || ends_with_slash a then a +:+ b
  else a +:+ "/" +:+ b.

(** The directory part of a relative path: what precedes its last slash
    (empty, the working directory, when there is none). *)
Fixpoint before_last_slash (s : string) : option string :=
  match s with
  | EmptyString => None
  | String c s' =>
      match before_last_slash s' with
      | Some d => Some (String c d)
      | None => if Ascii.eqb c "/" then Some EmptyString else None
      end
  end.

Definition dirname (s : string) : string :=
  match before_last_slash s with
  | Some d => d
  | None => EmptyString
  end.

(** *** The world *)

Inductive syscall :=
  | SysExists (p : string)
  | SysMakedirs (p : string)
  | SysOpen (p : string)
  | SysWrite (p : string) (data : string)
  | SysPrint (line : string).

(** Directories and files by path; the paths the process may not create or
    open for writing; the paths whose device is full; what was printed;
    and the calls made so far, oldest first. *)
Record world := World {
  dirs : gset string;
  files : gmap string string;
  unwritable : gset string;
  no_space : gset string;
  stdout : list string;
  calls : list syscall
}.

Definition set_dirs (w : world) (d : gset string) : world :=
  World d (files w) (unwritable w) (no_space w) (stdout w) (calls w).
Definition set_files (w : world) (f : gmap string string) : world :=
  World (dirs w) f (unwritable w) (no_space w) (stdout w) (calls w).
Definition set_stdout (w : world) (o : list string) : world :=
  World (dirs w) (files w) (unwritable w) (no_space w) o (calls w).
Definition log (c : syscall) (w : world) : world :=
  World (dirs w) (files w) (unwritable w) (no_space w) (stdout w) (calls w ++ [c]).

Definition is_dir (w : world) (p : string) : bool := bool_decide (p ∈ dirs w).
Definition is_file (w : world) (p : string) : bool :=
  match files w !! p with Some _ => true | None => false end.

Definition sys_exists (w : world) (p : string) : bool :=
  is_dir w p || is_file w p.

Definition sys_makedirs (w : world) (p : string) : result world :=
  if sys_exists w p then Err (FileExistsError p)
  else if bool_decide (p ∈ unwritable w) then Err (PermissionError p)
  else Ok (set_dirs w ({[p]} ∪ dirs w)).

(** [open(p, "w")] creates the file or truncates it. *)
Definition sys_open (w : world) (p : string) : result world :=
  let d := dirname p in
  if negb (String.eqb d EmptyString) && is_file w d then Err (NotADirectoryError p)
  else if negb (String.eqb d EmptyString) && negb (is_dir w d) then Err (FileNotFoundError p)
  else if is_dir w p then Err (IsADirectoryError p)
  else if bool_decide (p ∈ unwritable w) then Err (PermissionError p)
  else Ok (set_files w (<[p := EmptyString]> (files w))).

Definition sys_write (w : world) (p data : string) : result world :=
  if bool_decide (p ∈ no_space w) then Err (NoSpaceError p)
  else Ok (set_files w (<[p := data]> (files w))).

Definition sys_print (w : world) (line : string) : world :=
  set_stdout w (stdout w ++ [line]).

(** Running a program: a failing call leaves the world as it found it
    (the call is logged all the same) and ends the run with its error. *)
Fixpoint run {A} (m : prog A) (w : world) : result A * world :=
  match m with
  | Ret a => (Ok a, w)
  | Raise e => (Err e, w)
  | PathExists p k => run (k (sys_exists w p)) (log (SysExists p) w)
  | Makedirs p k =>
      match sys_makedirs (log (SysMakedirs p) w) p with
      | Ok w' => run k w'
      | Err e => (Err e, log (SysMakedirs p) w)
      end
  | OpenW p k =>
      match sys_open (log (SysOpen p) w) p with
      | Ok w' => run k w'
      | Err e => (Err e, log (SysOpen p) w)
      end
  | FWrite p data k =>
      match sys_write (log (SysWrite p data) w) p data with
      | Ok w' => run k w'
      | Err e => (Err e, log (SysWrite p data) w)
      end
  | Print line k => run k (sys_print (log (SysPrint line) w) line)
  end.

(** ** [create_svg] *)

Definition svg_text (width height : num) (content : string) : string :=
  dq "<svg width='" +:+ format width +:+
  dq "' height='" +:+ format height +:+
  dq "' viewBox='0 0 " +:+ format width +:+ " " +:+ format height +:+
  dq "' xmlns='http://www.w3.org/2000/svg'>" +:+ nl +:+
  content +:+ nl +:+ "</svg>".

Definition create_svg (filename : string) (width height : num) (content : string)
  : prog unit :=
  (let svg := svg_text width height content in
   let filepath := os_path_join OUTPUT_DIR filename in
   call open_w filepath then
   call f_write filepath svg then
   print ("Created " +:+ filename))%prog.

(** ** [generate_assets] *)

Definition f0_8 : num := PyFloat (float_lit 8 10).
Definition f3_0 : num := PyFloat (float_lit 3 1).
Definition f0_5 : num := PyFloat (float_lit 5 10).
Definition f0_6 : num := PyFloat (float_lit 6 10).

(** The triple-quoted [defs] template, line by line. *)
Definition defs_text (purple cyan : string) : string :=
  nl +:+
  dq "    <defs>" +:+ nl +:+
  dq "        <linearGradient id='nebula_gradient' x1='0%' y1='0%' x2='100%' y2='100%'>" +:+ nl +:+
  dq "            <stop offset='0%' style='stop-color:" +:+ purple +:+ dq ";stop-opacity:1' />" +:+ nl +:+
  dq "            <stop offset='100%' style='stop-color:" +:+ cyan +:+ dq ";stop-opacity:1' />" +:+ nl +:+
  dq "        </linearGradient>" +:+ nl +:+
  dq "    </defs>" +:+ nl +:+
  "    ".

(** [f'{defs}<path d="{d}" fill="url(#nebula_gradient)" />'] *)
Definition gradient_mark (defs d : string) : string :=
  defs +:+ dq "<path d='" +:+ d +:+ dq "' fill='url(#nebula_gradient)' />".

Definition logo_light_text (logo_mark navy logo_paths : string) : string :=
  nl +:+
  "    " +:+ logo_mark +:+ nl +:+
  dq "    <g style='color:" +:+ navy +:+ dq "'>" +:+ logo_paths +:+ "</g>" +:+ nl +:+
  "    ".

Definition logo_dark_text (defs logo_mark white logo_paths : string) : string :=
  nl +:+
  "    " +:+ defs +:+ nl +:+
  "    " +:+ logo_mark +:+ nl +:+
  dq "    <g style='color:" +:+ white +:+ dq "'>" +:+ logo_paths +:+ "</g>" +:+ nl +:+
  "    ".

Definition ornate_text (cx : num) (gold cyan gold' : string) : string :=
  nl +:+
  dq "    <circle cx='" +:+ format cx +:+ dq "' cy='10' r='5' fill='" +:+ gold +:+ dq "' opacity='0.8' />" +:+ nl +:+
  dq "    <circle cx='10' cy='70' r='3' fill='" +:+ cyan +:+ dq "' opacity='0.6' />" +:+ nl +:+
  dq "    <path d='M 50,-10 L 52,-4 L 58,-2 L 52,0 L 50,6 L 48,0 L 42,-2 L 48,-4 Z' fill='" +:+ gold' +:+ dq "' />" +:+ nl +:+
  "    ".

Definition pattern_text (white1 white2 gold space : string) : string :=
  nl +:+
  dq "    <defs>" +:+ nl +:+
  dq "      <pattern id='stars' x='0' y='0' width='100' height='100' patternUnits='userSpaceOnUse'>" +:+ nl +:+
  dq "        <circle cx='10' cy='10' r='1.5' fill='" +:+ white1 +:+ dq "' fill-opacity='0.5'/>" +:+ nl +:+
  dq "        <circle cx='50' cy='60' r='2.5' fill='" +:+ white2 +:+ dq "' fill-opacity='0.3'/>" +:+ nl +:+
  dq "        <circle cx='80' cy='30' r='2' fill='" +:+ gold +:+ dq "' fill-opacity='0.4'/>" +:+ nl +:+
  dq "      </pattern>" +:+ nl +:+
  dq "    </defs>" +:+ nl +:+
  dq "    <rect width='100%' height='100%' fill='" +:+ space +:+ dq "' />" +:+ nl +:+
  dq "    <rect width='100%' height='100%' fill='url(#stars)' />" +:+ nl +:+
  "    ".

Definition generate_assets : prog unit :=
  (pbind (os_path_exists OUTPUT_DIR) (fun present =>
   call (if negb present then os_makedirs OUTPUT_DIR else Ret tt) then

   (* Common Gradients *)
   try purple := color "Nebula Purple" in
   try cyan := color "Cosmic Cyan" in
   let defs := defs_text purple cyan in

   (* 1. nebula-x-mark.svg *)
   try mark_path := get_n_mark_path f0_8 (PyInt 10) (PyInt 10) in
   let mark_content := gradient_mark defs mark_path in
   call create_svg "nebula-x-mark.svg" (PyInt 100) (PyInt 100) mark_content then

   (* 2. nebula-x-splash.svg *)
   try splash_path := get_n_mark_path f3_0 (PyInt 50) (PyInt 50) in
   let splash_content := gradient_mark defs splash_path in
   call create_svg "nebula-x-splash.svg" (PyInt 400) (PyInt 400) splash_content then

   (* 3. nebula-x-wordmark.svg *)
   try wm := get_wordmark_paths f0_5 (PyInt 0) (PyInt 0) in
   let '(wordmark_paths, width) := wm in
   try white := color "Starlight White" in
   let wordmark_content :=
     dq "<g style='color:" +:+ white +:+ dq "'>" +:+ wordmark_paths +:+ "</g>" in
   try w := int width in
   call create_svg "nebula-x-wordmark.svg" (PyInt w) (PyInt 60) wordmark_content then

   (* 4. nebula-x-logo-light.svg *)
   try lg := get_wordmark_paths f0_5 (PyInt 70) (PyInt 15) in
   let '(logo_paths, logo_width) := lg in
   try logo_mark_path := get_n_mark_path f0_6 (PyInt 0) (PyInt 10) in
   let logo_mark := gradient_mark defs logo_mark_path in
   try navy := color "Space Navy" in
   let logo_light_content := logo_light_text logo_mark navy logo_paths in
   try w := int logo_width in
   call create_svg "nebula-x-logo-light.svg" (PyInt w) (PyInt 80) logo_light_content then

   (* 5. nebula-x-logo-dark.svg *)
   try white := color "Starlight White" in
   let logo_dark_content := logo_dark_text defs logo_mark white logo_paths in
   try w := int logo_width in
   call create_svg "nebula-x-logo-dark.svg" (PyInt w) (PyInt 80) logo_dark_content then

   (* 6. Ornate logos *)
   try w := int logo_width in
   try gold := color "Stellar Gold" in
   try cyan := color "Cosmic Cyan" in
   try gold' := color "Stellar Gold" in
   let ornate_blobs := ornate_text (PyInt (w - 10)) gold cyan gold' in
   try w := int logo_width in
   call create_svg "nebula-x-logo-ornate-light.svg" (PyInt w) (PyInt 80)
          ("<g>" +:+ logo_light_content +:+ ornate_blobs +:+ "</g>") then
   try w := int logo_width in
   call create_svg "nebula-x-logo-ornate-dark.svg" (PyInt w) (PyInt 80)
          ("<g>" +:+ logo_dark_content +:+ ornate_blobs +:+ "</g>") then

   (* 7. Pattern *)
   try white1 := color "Starlight White" in
   try white2 := color "Starlight White" in
   try gold := color "Stellar Gold" in
   try space := color "Deep Space" in
   let pattern_content := pattern_text white1 white2 gold space in
   call create_svg "space-bg-pattern.svg" (PyInt 400) (PyInt 400) pattern_content then

   (* 8. Favicon.svg *)
   create_svg "favicon.svg" (PyInt 100) (PyInt 100) mark_content))%prog.

(** [if __name__ == "__main__": generate_assets()] *)
Definition main : prog unit := generate_assets.

(** ** Observations on texts, polygons and documents

    What the properties below are stated with. *)

Fixpoint all_chars (P : ascii -> bool) (s : string) : bool :=
  match s with
  | EmptyString => true
  | String c s' => P c && all_chars P s'
  end.

Fixpoint count_chars (P : ascii -> bool) (s : string) : nat :=
  match s with
  | EmptyString => O
  | String c s' => ((if P c then 1 else 0) + count_chars P s')%nat
  end.

(** The characters a formatted number is made of: digits, sign, point,
    exponent mark and the letters of [inf] and [nan]. *)
Definition num_char (c : ascii) : bool :=
  let n := nat_of_ascii c in
  ((48 <=? n) && (n <=? 57))%nat
  || Ascii.eqb c "." || Ascii.eqb c "-" || Ascii.eqb c "+" || Ascii.eqb c "e"
  || Ascii.eqb c "i" || Ascii.eqb c "n" || Ascii.eqb c "f" || Ascii.eqb c "a".

(** The command letters of a path description. *)
Definition command_char (c : ascii) : bool :=
  Ascii.eqb c "M" || Ascii.eqb c "L" || Ascii.eqb c "Z".

(** [strip_prefix p s] is what follows [p] when [s] starts with it. *)
Fixpoint strip_prefix (p s : string) : option string :=
  match p, s with
  | EmptyString, _ => Some s
  | String a p', String b s' =>
      if Ascii.eqb a b then strip_prefix p' s' else None
  | String _ _, EmptyString => None
  end.

Definition starts_with (p s : string) : bool :=
  match strip_prefix p s with Some _ => true | None => false end.

Fixpoint ends_with (p s : string) : bool :=
  String.eqb p s ||
  match s with
  | EmptyString => false
  | String _ s' => ends_with p s'
  end.

(** What follows the first occurrence of [p] in [s]. *)
Fixpoint find_after (p s : string) : option string :=
  match strip_prefix p s with
  | Some r => Some r
  | None =>
      match s with
      | EmptyString => None
      | String _ s' => find_after p s'
      end
  end.

Definition contains (p s : string) : bool :=
  match find_after p s with Some _ => true | None => false end.

Fixpoint take_until (c : ascii) (s : string) : string :=
  match s with
  | EmptyString => EmptyString
  | String a s' => if Ascii.eqb a c then EmptyString else String a (take_until c s')
  end.

(** The value of the first attribute [name="..."] of a document. *)
Definition attribute (name doc : string) : option string :=
  match find_after (" " +:+ name +:+ dq "='") doc with
  | Some r => Some (take_until dquote r)
  | None => None
  end.

(** *** The path of the specification

    A path description as the specification words it: a move to the first
    transformed point, a line to each further one in order, and a close. *)
Inductive instr :=
  | MoveTo (x y : float)
  | LineTo (x y : float)
  | ClosePath.

Definition trace_polygon (tps : list (float * float)) : list instr :=
  match tps with
  | [] => [ClosePath]
  | p :: rest =>
      MoveTo (fst p) (snd p) :: map (fun q => LineTo (fst q) (snd q)) rest ++ [ClosePath]
  end.

Definition instr_text (i : instr) : string :=
  match i with
  | MoveTo x y => "M " +:+ repr_float x +:+ "," +:+ repr_float y
  | LineTo x y => "L " +:+ repr_float x +:+ "," +:+ repr_float y
  | ClosePath => "Z"
  end.

Definition path_text (ins : list instr) : string :=
  join " " (map instr_text ins).

(** The float a number stands for, and whether it has one. *)
Definition float_value (v : num) : float :=
  match v with
  | PyInt z => binary_normalize prec emax z 0 false
  | PyFloat f => f
  end.

Definition representable (v : num) : bool :=
  match to_float v with Ok _ => true | Err _ => false end.

Definition representable_point (p : point) : bool :=
  representable (fst p) && representable (snd p).

(** [(x*scale + offsetX, y*scale + offsetY)] in float arithmetic *)
Definition transformed (scale : float) (ox oy : num) (p : point) : float * float :=
  (fadd (fmul (float_value (fst p)) scale) (float_value ox),
   fadd (fmul (float_value (snd p)) scale) (float_value oy)).

(** [f] is exactly the rational [n/d] ([d > 0]). *)
Definition float_is (f : float) (n d : Z) : Prop :=
  match f with
  | S754_zero _ => n = 0
  | S754_finite s m e =>
      let v := if s then Z.neg m else Z.pos m in
      if 0 <=? e then v * 2 ^ e * d = n else v * d = n * 2 ^ (- e)
  | _ => False
  end.

(** *** The files of a program *)

(** One file of the script: its path, its text, the line printed for it. *)
Definition document : Type := string * string * string.
Definition doc_path (d : document) : string := fst (fst d).
Definition doc_text (d : document) : string := snd (fst d).
Definition doc_line (d : document) : string := snd d.

(** The body of [create_svg] once its strings are computed. *)
Definition write_doc (d : document) : prog unit :=
  (call open_w (doc_path d) then
   call f_write (doc_path d) (doc_text d) then
   print (doc_line d))%prog.

Fixpoint write_docs (l : list document) : prog unit :=
  match l with
  | [] => Ret tt
  | d :: l' => (call write_doc d then write_docs l')%prog
  end.

(** The files a program writes when no call fails and the directory is
    already there. *)
Fixpoint documents_of (m : prog unit) : list document :=
  match m with
  | PathExists _ k => documents_of (k true)
  | Makedirs _ k => documents_of k
  | OpenW p (FWrite _ data (Print line k)) => (p, data, line) :: documents_of k
  | _ => []
  end.

Definition documents : list document := documents_of generate_assets.

Definition asset_names : list string :=
  [ "nebula-x-mark.svg"; "nebula-x-splash.svg"; "nebula-x-wordmark.svg";
    "nebula-x-logo-light.svg"; "nebula-x-logo-dark.svg";
    "nebula-x-logo-ornate-light.svg"; "nebula-x-logo-ornate-dark.svg";
    "space-bg-pattern.svg"; "favicon.svg" ].

Definition asset_paths : list string := map (os_path_join OUTPUT_DIR) asset_names.

(** The files after the documents [l] are written over [m], in order. *)
Fixpoint write_files (l : list document) (m : gmap string string) : gmap string string :=
  match l with
  | [] => m
  | d :: l' => write_files l' (<[doc_path d := doc_text d]> m)
  end.

Definition doc_calls (d : document) : list syscall :=
  [SysOpen (doc_path d); SysWrite (doc_path d) (doc_text d); SysPrint (doc_line d)].

(** Whether [open(p, "w")] and the write after it go through. *)
Definition can_write (w : world) (p : string) : bool :=
  let d := dirname p in
  (String.eqb d EmptyString || (negb (is_file w d) && is_dir w d))
  && negb (is_dir w p)
  && negb (bool_decide (p ∈ unwritable w))
  && negb (bool_decide (p ∈ no_space w)).

Definition empty_world : world := World ∅ ∅ ∅ ∅ [] [].

(** ** Observations on runs, frames and the wordmark *)

(** The text of one transformed point, [x,y]. *)
Definition coord_text (tp : float * float) : string :=
  repr_float (fst tp) +:+ "," +:+ repr_float (snd tp).

(** The world after the documents [l] went through. *)
Definition after_docs (w : world) (l : list document) : world :=
  World (dirs w) (write_files l (files w)) (unwritable w) (no_space w)
        (stdout w ++ map doc_line l) (calls w ++ flat_map doc_calls l).

(** The world in which writing [d] failed: either at the open, which
    leaves the files alone, or at the write into the opened file. *)
Definition failed_at (w : world) (d : document) (e : exn) (w' : world) : Prop :=
  (sys_open w (doc_path d) = Err e
   /\ w' = log (SysOpen (doc_path d)) w)
  \/ (e = NoSpaceError (doc_path d)
      /\ w' = log (SysWrite (doc_path d) (doc_text d))
                (set_files (log (SysOpen (doc_path d)) w)
                           (<[doc_path d := EmptyString]> (files w)))).

(** The text last written to [k] by the documents [l], if any. *)
Fixpoint last_text (k : string) (l : list document) : option string :=
  match l with
  | [] => None
  | d :: l' =>
      match last_text k l' with
      | Some t => Some t
      | None => if String.eqb (doc_path d) k then Some (doc_text d) else None
      end
  end.

(** Every document of [l] lies directly in the directory [D]. *)
Definition in_dir (D : string) (l : list document) : bool :=
  forallb (fun d => String.eqb (dirname (doc_path d)) D
                    && negb (String.eqb (doc_path d) D)) l.

(** A world in which the directory and stale files are already there. *)
Definition populated_world : world :=
  World {[OUTPUT_DIR]}
        {[ "nebula-x-assets/favicon.svg" := "old icon";
           "nebula-x-assets/notes.txt" := "keep" ]}
        ∅ ∅ ["earlier output"] [].

(** The outcome of the run from the empty and from the populated world. *)
Definition fresh_outcome : world := snd (run main empty_world).
Definition populated_outcome : world := snd (run main populated_world).

(** Each file can be created: its path is no directory, is not protected
    and its device is not full. *)
Definition file_free (w : world) (p : string) : bool :=
  negb (is_dir w p)
  && negb (bool_decide (p ∈ unwritable w))
  && negb (bool_decide (p ∈ no_space w)).

(** A world in which the third file may not be opened for writing. *)
Definition protected_world : world :=
  World {[OUTPUT_DIR]} {[ "nebula-x-assets/nebula-x-wordmark.svg" := "old" ]}
        {[ "nebula-x-assets/nebula-x-wordmark.svg" ]} ∅ [] [].

Definition protected_outcome : world := snd (run main protected_world).

(** [mark_content], the body of the first and of the last document. *)
Definition mark_content : string :=
  match color "Nebula Purple", color "Cosmic Cyan",
        get_n_mark_path f0_8 (PyInt 10) (PyInt 10) with
  | Ok purple, Ok cyan, Ok d => gradient_mark (defs_text purple cyan) d
  | _, _, _ => EmptyString
  end.

(** The horizontal advances of [get_wordmark_paths]: N, E, B, U, L, A, the
    space and X. *)
Definition advances : list Z := [120; 100; 100; 100; 100; 120; 40; 120].

(** [wordmark_content], the body of the third document. *)
Definition wordmark_content : string :=
  match get_wordmark_paths f0_5 (PyInt 0) (PyInt 0), color "Starlight White" with
  | Ok (wordmark_paths, _), Ok white =>
      dq "<g style='color:" +:+ white +:+ dq "'>" +:+ wordmark_paths +:+ "</g>"
  | _, _ => EmptyString
  end.

(** What [create_svg] was given as content: the text between the first
    line and the closing line of a document. *)
Definition body_of (doc : string) : string :=
  match find_after nl doc with
  | Some r => take_chars (String.length r - 7)%nat r
  | None => EmptyString
  end.

(** Width and height of the nine documents, in the order of the script. *)
Definition asset_frames : list (Z * Z) :=
  [ (100, 100); (400, 400); (400, 60); (470, 80); (470, 80); (470, 80);
    (470, 80); (400, 400); (100, 100) ].

(** The point lists of the script: the mark and the contours of the
    letters. *)
Definition polygon_literals : list (list point) :=
  [ n_points; pts_e; pts_b_out; pts_b_in1; pts_b_in2; pts_u; pts_l;
    pts_a_out; pts_a_in; pts_x ].

(** The closed outline of [points] under a transform, as a text. *)
Definition contour (scale : float) (x y : num) (points : list point) : string :=
  path_text (trace_polygon (map (transformed scale x y) points)).

(** The pen position after an advance of [w * scale]. *)
Definition pen (scale : float) (x : num) (w : Z) : num :=
  PyFloat (fadd (float_value x) (fmul (float_value (PyInt w)) scale)).

(** A non-empty outline whose coordinates all have a float value. *)
Definition usable (points : list point) : bool :=
  forallb representable_point points
  && match points with [] => false | _ :: _ => true end.

(** ** Further observations *)

(** [s.split(c)]: the pieces of [s] between the occurrences of [c]. *)
Fixpoint split_on (c : ascii) (s : string) : list string :=
  match s with
  | EmptyString => [EmptyString]
  | String a s' =>
      if Ascii.eqb a c then EmptyString :: split_on c s'
      else match split_on c s' with
           | h :: t => String a h :: t
           | [] => [String a EmptyString]
           end
  end.

(** The pieces of a path text: the command letters and the coordinate
    pairs in turn. *)
Definition path_tokens (tps : list (float * float)) : list string :=
  match tps with
  | [] => ["M"; EmptyString; "Z"]
  | tp :: rest =>
      "M" :: coord_text tp
      :: flat_map (fun q => ["L"; coord_text q]) rest ++ ["Z"]
  end.

(** How often [pat] occurs in [s]. *)
Fixpoint occurrences (pat s : string) : nat :=
  match s with
  | EmptyString => O
  | String _ s' =>
      ((if starts_with pat s then 1 else 0) + occurrences pat s')%nat
  end.

(** The lines the script prints, one for each file. *)
Definition created_lines : list string :=
  map (fun name => "Created " +:+ name) asset_names.

(** A world in which the name of the output directory is taken by a plain
    file, one in which the directory may not be created, and one in which
    the device is full for the splash file. *)
Definition blocked_world : world :=
  World ∅ {[ OUTPUT_DIR := "not a directory" ]} ∅ ∅ [] [].
Definition locked_world : world :=
  World ∅ ∅ {[ OUTPUT_DIR ]} ∅ [] [].
Definition full_world : world :=
  World {[OUTPUT_DIR]} {[ "nebula-x-assets/nebula-x-splash.svg" := "old splash" ]}
        ∅ {[ "nebula-x-assets/nebula-x-splash.svg" ]} [] [].


(** The text the program writes for the file [name]. *)
Definition document_text (name : string) : string :=
  match last_text (os_path_join OUTPUT_DIR name) documents with
  | Some t => t
  | None => EmptyString
  end.

(** The opening tag of the gradient that [defs] declares. *)
Definition gradient_tag : string := dq "<linearGradient id='nebula_gradient'".

(** The directory step can go through: the output directory is there as a
    directory, or it is absent and may be created. *)
Definition dir_ready (w : world) : bool :=
  if sys_exists w OUTPUT_DIR
  then is_dir w OUTPUT_DIR && negb (is_file w OUTPUT_DIR)
  else negb (bool_decide (OUTPUT_DIR ∈ unwritable w)).

(** * Properties *)

(** ** The number model against the interpreter *)

Example repr_0_8 : Py.repr_float (Py.float_lit 8 10) = "0.8".
Proof. vm_compute. reflexivity. Qed.

Example repr_sum :
  Py.repr_float (Py.fadd (Py.float_lit 1 10) (Py.float_lit 2 10))
  = "0.30000000000000004".
Proof. vm_compute. reflexivity. Qed.

Example repr_exponent :
  Py.repr_float (Py.float_lit 10000000000000000 1) = "1e+16"
  /\ Py.repr_float (Py.float_lit 1 100000) = "1e-05"
  /\ Py.repr_float (S754_finite false 1 (-1074)) = "5e-324".
Proof. vm_compute. auto. Qed.

Example repr_tie_even :
  Py.repr_float (S754_finite true 6964302569981986 (-3)) = "-870537821247748.2".
Proof. vm_compute. reflexivity. Qed.

Example int_truncates :
  Py.int (Py.PyFloat (Py.float_lit (-7) 2)) = Ok (-3).
Proof. vm_compute. reflexivity. Qed.

(** ** The program as a sequence of writes *)

Lemma generate_assets_shape :
  generate_assets =
  PathExists OUTPUT_DIR (fun present =>
    pbind (if negb present then os_makedirs OUTPUT_DIR else Ret tt)
          (fun _ => write_docs documents)).
Proof. vm_compute. reflexivity. Qed.

Lemma documents_paths : map doc_path documents = asset_paths.
Proof. vm_compute. reflexivity. Qed.

(** ** Texts *)

#[local] Arguments String.append !s1 s2 : simpl nomatch.

Lemma append_assoc (a b c : string) : (a +:+ b) +:+ c = a +:+ (b +:+ c).
Proof. induction a as [|x a' IH]; simpl; [reflexivity | f_equal; exact IH]. Qed.

Lemma append_empty_r (a : string) : a +:+ EmptyString = a.
Proof. induction a as [|x a' IH]; simpl; [reflexivity | f_equal; exact IH]. Qed.

Lemma all_chars_app P (a b : string) :
  all_chars P (a +:+ b) = all_chars P a && all_chars P b.
Proof.
  induction a as [|x a' IH]; simpl; [reflexivity |].
  rewrite IH. now rewrite andb_assoc.
Qed.

Lemma count_chars_app P (a b : string) :
  count_chars P (a +:+ b) = (count_chars P a + count_chars P b)%nat.
Proof. induction a as [|x a' IH]; simpl; [reflexivity | rewrite IH; lia]. Qed.

Lemma all_chars_weaken (P Q : ascii -> bool) (s : string) :
  (forall c, P c = true -> Q c = true) ->
  all_chars P s = true -> all_chars Q s = true.
Proof.
  intros HPQ. induction s as [|x s IH]; simpl; [reflexivity |].
  intros H. apply andb_true_iff in H as [Hx Hs].
  rewrite (HPQ _ Hx). now apply IH.
Qed.

Lemma count_chars_none (P Q : ascii -> bool) (s : string) :
  (forall c, P c = true -> Q c = false) ->
  all_chars P s = true -> count_chars Q s = O.
Proof.
  intros HPQ. induction s as [|x s IH]; simpl; [reflexivity |].
  intros H. apply andb_true_iff in H as [Hx Hs].
  rewrite (HPQ _ Hx). now rewrite IH.
Qed.

Lemma num_char_digit (d : Z) : num_char (digit_char d) = true.
Proof.
  unfold digit_char.
  pose proof (Z.mod_pos_bound d 10 eq_refl) as Hr.
  assert (Hk : (Z.to_nat (d mod 10) < 10)%nat) by lia.
  destruct (Z.to_nat (d mod 10)) as [|[|[|[|[|[|[|[|[|[|k]]]]]]]]]];
    try reflexivity; lia.
Qed.

Lemma all_chars_digits_fuel fuel n acc :
  all_chars num_char acc = true ->
  all_chars num_char (digits_fuel fuel n acc) = true.
Proof.
  revert n acc. induction fuel as [|fuel IH]; intros n acc Hacc;
    cbn [digits_fuel]; [assumption |].
  assert (Hstep : all_chars num_char (String (digit_char n) acc) = true).
  { cbn [all_chars]. now rewrite num_char_digit. }
  destruct (n <? 10); [assumption | now apply IH].
Qed.

Lemma all_chars_digits n : all_chars num_char (digits n) = true.
Proof. unfold digits. apply all_chars_digits_fuel. reflexivity. Qed.

Lemma all_chars_zeros n : all_chars num_char (zeros n) = true.
Proof. induction n as [|n IH]; simpl; [reflexivity | assumption]. Qed.

Lemma all_chars_take P n s :
  all_chars P s = true -> all_chars P (take_chars n s) = true.
Proof.
  revert s. induction n as [|n IH]; intros [|c s]; simpl; try reflexivity.
  intros H. apply andb_true_iff in H as [Hc Hs]. rewrite Hc. now apply IH.
Qed.

Lemma all_chars_drop P n s :
  all_chars P s = true -> all_chars P (drop_chars n s) = true.
Proof.
  revert s. induction n as [|n IH]; intros [|c s]; simpl; try reflexivity; try easy.
  intros H. apply andb_true_iff in H as [Hc Hs]. now apply IH.
Qed.

Lemma all_chars_exponent_text x : all_chars num_char (exponent_text x) = true.
Proof.
  unfold exponent_text. rewrite !all_chars_app, all_chars_digits.
  destruct (x <? 0), (Z.abs x <? 10); reflexivity.
Qed.

Lemma all_chars_layout ds decpt :
  all_chars num_char ds = true -> all_chars num_char (layout ds decpt) = true.
Proof.
  intros Hds. unfold layout.
  repeat match goal with
         | |- context [if ?b then _ else _] => destruct b
         end;
    rewrite ?all_chars_app, ?all_chars_exponent_text, ?all_chars_zeros, ?Hds,
      ?(all_chars_take _ _ _ Hds), ?(all_chars_drop _ _ _ Hds); reflexivity.
Qed.

Lemma all_chars_repr_float f : all_chars num_char (repr_float f) = true.
Proof.
  destruct f as [s|s| |s m e]; cbn [repr_float];
    [destruct s; reflexivity | destruct s; reflexivity | reflexivity |].
  destruct (shortest (Z.pos m) e) as [c q].
  rewrite all_chars_app, all_chars_layout by apply all_chars_digits.
  destruct s; reflexivity.
Qed.

Lemma all_chars_format v : all_chars num_char (format v) = true.
Proof.
  destruct v as [z|f]; cbn [format]; [| apply all_chars_repr_float].
  unfold str_int. destruct (z <? 0); [| apply all_chars_digits].
  rewrite all_chars_app, all_chars_digits. reflexivity.
Qed.

Lemma num_char_not_command c : num_char c = true -> command_char c = false.
Proof.
  destruct c as [[] [] [] [] [] [] [] []]; vm_compute; congruence.
Qed.

Lemma count_commands_repr_float f : count_chars command_char (repr_float f) = O.
Proof.
  apply (count_chars_none num_char); [apply num_char_not_command |].
  apply all_chars_repr_float.
Qed.

Lemma join_cons sep x y l :
  join sep (x :: y :: l) = x +:+ sep +:+ join sep (y :: l).
Proof. reflexivity. Qed.

Lemma ends_with_app (p a : string) : ends_with p (a +:+ p) = true.
Proof.
  induction a as [|c a' IH].
  - cbn [String.append]. destruct p; cbn [ends_with]; now rewrite String.eqb_refl.
  - cbn [String.append ends_with]. rewrite IH. apply orb_true_r.
Qed.

(** ** The path expression *)

Lemma to_float_representable v :
  representable v = true -> to_float v = Ok (float_value v).
Proof.
  destruct v as [z|f]; [| reflexivity].
  unfold representable, to_float, float_of_int, float_value.
  destruct (binary_normalize prec emax z 0 false); intros H;
    try reflexivity; discriminate H.
Qed.

Lemma mul_by_float a s :
  representable a = true ->
  mul a (PyFloat s) = Ok (PyFloat (fmul (float_value a) s)).
Proof.
  intros Ha. unfold mul.
  destruct a as [z|f]; rewrite (to_float_representable _ Ha); reflexivity.
Qed.

Lemma add_to_float a b :
  representable b = true ->
  add (PyFloat a) b = Ok (PyFloat (fadd a (float_value b))).
Proof.
  intros Hb. unfold add. cbn [to_float rbind].
  rewrite (to_float_representable _ Hb). reflexivity.
Qed.

Lemma coord_representable s ox oy p :
  representable_point p = true ->
  representable ox = true -> representable oy = true ->
  coord (PyFloat s) ox oy p = Ok (coord_text (transformed s ox oy p)).
Proof.
  intros Hp Hx Hy. apply andb_true_iff in Hp as [H1 H2].
  unfold coord.
  rewrite (mul_by_float _ s H1). cbn [rbind].
  rewrite (add_to_float _ _ Hx). cbn [rbind].
  rewrite (mul_by_float _ s H2). cbn [rbind].
  rewrite (add_to_float _ _ Hy). reflexivity.
Qed.

Lemma coords_representable s ox oy pts :
  forallb representable_point pts = true ->
  representable ox = true -> representable oy = true ->
  coords pts (PyFloat s) ox oy
  = Ok (map (fun p => coord_text (transformed s ox oy p)) pts).
Proof.
  intros Hpts Hx Hy. unfold coords.
  induction pts as [|p pts IH]; [reflexivity |].
  cbn [forallb] in Hpts. apply andb_true_iff in Hpts as [Hp Hrest].
  cbn [mapM map]. rewrite (coord_representable s ox oy p Hp Hx Hy).
  rewrite (IH Hrest). reflexivity.
Qed.

(** The text of the specification's path is the text the expression
    builds. *)
Lemma path_text_trace tp tps :
  path_text (trace_polygon (tp :: tps))
  = "M " +:+ join " L " (map coord_text (tp :: tps)) +:+ " Z".
Proof.
  unfold path_text. cbn [trace_polygon map].
  assert (Hgen : forall (pre c : string) l,
    join " " ((pre +:+ c) :: map instr_text
                (map (fun q => LineTo (fst q) (snd q)) l ++ [ClosePath]))
    = pre +:+ join " L " (c :: map coord_text l) +:+ " Z").
  { intros pre c l. revert pre c. induction l as [|q l IH]; intros pre c.
    - cbn [map app join]. now rewrite append_assoc.
    - cbn [map app]. rewrite !join_cons.
      change (instr_text (LineTo (fst q) (snd q))) with ("L " +:+ coord_text q).
      rewrite (IH "L " (coord_text q)).
      rewrite !append_assoc. reflexivity. }
  exact (Hgen "M " (coord_text tp) tps).
Qed.

Lemma path_d_trace s ox oy p pts :
  forallb representable_point (p :: pts) = true ->
  representable ox = true -> representable oy = true ->
  path_d (p :: pts) (PyFloat s) ox oy
  = Ok (path_text (trace_polygon (map (transformed s ox oy) (p :: pts)))).
Proof.
  intros Hpts Hx Hy. unfold path_d.
  rewrite (coords_representable s ox oy _ Hpts Hx Hy). cbn [rbind].
  cbn [map]. rewrite path_text_trace. cbn [map].
  rewrite !map_map. reflexivity.
Qed.

Lemma count_commands_trace tps :
  count_chars command_char (path_text (trace_polygon tps))
  = S (length tps).
Proof.
  destruct tps as [|tp tps]; [reflexivity |].
  rewrite path_text_trace.
  rewrite !count_chars_app.
  assert (Hc : forall q, count_chars command_char (coord_text q) = O).
  { intros q. unfold coord_text. rewrite !count_chars_app, !count_commands_repr_float.
    reflexivity. }
  assert (Hj : forall c l, count_chars command_char (join " L " (c :: map coord_text l))
                           = (count_chars command_char c + length l)%nat).
  { intros c l. revert c. induction l as [|q l IH]; intros c.
    - cbn [map join length]. lia.
    - cbn [map]. rewrite join_cons, !count_chars_app, IH, Hc. cbn [length].
      change (count_chars command_char " L ") with 1%nat. lia. }
  cbn [map]. rewrite Hj, Hc. cbn [length].
  change (count_chars command_char "M ") with 1%nat.
  change (count_chars command_char " Z") with 1%nat. lia.
Qed.

Lemma strip_prefix_app (p r : string) : strip_prefix p (p +:+ r) = Some r.
Proof.
  induction p as [|c p' IH]; [reflexivity |].
  cbn [String.append strip_prefix]. now rewrite Ascii.eqb_refl.
Qed.

Lemma starts_with_app (p r : string) : starts_with p (p +:+ r) = true.
Proof. unfold starts_with. now rewrite strip_prefix_app. Qed.

Lemma starts_with_app2 (a b r : string) :
  starts_with (a +:+ b) (a +:+ b +:+ r) = true.
Proof. rewrite <- append_assoc. apply starts_with_app. Qed.

(** C1: for a point sequence of length at least 2, any scale (a positive
    one in particular) and any offsets, the path expression yields the text
    of: a move to the first transformed point
    [(x*scale + offset_x, y*scale + offset_y)], a line to every further
    transformed point in the order of the input, and one close; that is
    [len(points)] move and line instructions and one closing instruction,
    which is also the number of command letters in the text. *)
Theorem path_d_instructions
    (p0 : point) (rest : list point) (scale : float) (offset_x offset_y : num) :
  let points := p0 :: rest in
  let tf := transformed scale offset_x offset_y in
  (2 <= length points)%nat ->
  forallb representable_point points = true ->
  representable offset_x = true ->
  representable offset_y = true ->
  exists d,
    path_d points (PyFloat scale) offset_x offset_y = Ok d
    /\ d = path_text (MoveTo (fst (tf p0)) (snd (tf p0))
                      :: map (fun q => LineTo (fst (tf q)) (snd (tf q))) rest
                      ++ [ClosePath])
    /\ starts_with ("M " +:+ coord_text (tf p0)) d = true
    /\ ends_with " Z" d = true
    /\ count_chars command_char d = S (length points).
Proof.
  intros points tf Hlen Hpts Hx Hy.
  exists (path_text (trace_polygon (map tf points))).
  split; [exact (path_d_trace scale offset_x offset_y p0 rest Hpts Hx Hy) |].
  split.
  { unfold points. cbn [map trace_polygon]. now rewrite map_map. }
  split.
  { unfold points. cbn [map]. rewrite path_text_trace. cbn [map].
    destruct (map coord_text (map tf rest)) as [|c l].
    - cbn [join]. apply starts_with_app2.
    - rewrite join_cons, !append_assoc. apply starts_with_app2. }
  split.
  { unfold points. cbn [map]. rewrite path_text_trace.
    rewrite <- append_assoc. apply ends_with_app. }
  rewrite count_commands_trace. now rewrite length_map.
Qed.

Lemma path_d_instructions_witness :
  exists d,
    path_d (pt 0 100 :: [pt 0 0; pt 30 0]) (PyFloat (float_lit 8 10)) (PyInt 10) (PyInt 10) = Ok d
    /\ starts_with "M 10.0,90.0 L 10.0,10.0 L 34.0,10.0 Z" d = true
    /\ count_chars command_char d = 4%nat.
Proof.
  destruct (path_d_instructions (pt 0 100) [pt 0 0; pt 30 0] (float_lit 8 10)
              (PyInt 10) (PyInt 10)) as (d & Hd & Htxt & _ & _ & Hcount).
  - cbn. lia.
  - reflexivity.
  - reflexivity.
  - reflexivity.
  - exists d. split; [exact Hd |]. split; [| exact Hcount].
    rewrite Htxt. vm_compute. reflexivity.
Defined.

(** C9: the path expression is total: for a point sequence of length at
    least 2 and any float scale (zero, negative, infinite or not a number
    included) it returns a text, which opens with a move and ends with the
    close instruction. *)
Theorem path_d_total
    (points : list point) (scale : float) (offset_x offset_y : num) :
  (2 <= length points)%nat ->
  forallb representable_point points = true ->
  representable offset_x = true ->
  representable offset_y = true ->
  exists d,
    path_d points (PyFloat scale) offset_x offset_y = Ok d
    /\ starts_with "M " d = true
    /\ ends_with " Z" d = true.
Proof.
  intros Hlen Hpts Hx Hy.
  destruct points as [|p0 rest]; [cbn in Hlen; lia |].
  eexists. split; [exact (path_d_trace scale offset_x offset_y p0 rest Hpts Hx Hy) |].
  cbn [map]. rewrite path_text_trace. split.
  - apply starts_with_app.
  - rewrite <- append_assoc. apply ends_with_app.
Qed.

(** Exactly two points, once with a negative and once with a zero scale. *)
Lemma path_d_total_witness :
  (exists d,
     path_d [pt 0 0; pt 30 40] (PyFloat (float_lit (-1) 2)) (PyInt 0) (PyFloat (float_lit 5 2)) = Ok d
     /\ starts_with "M " d = true /\ ends_with " Z" d = true)
  /\ path_d [pt 0 0; pt 30 40] (PyFloat (float_lit (-1) 2)) (PyInt 0) (PyFloat (float_lit 5 2))
     = Ok "M 0.0,2.5 L -15.0,-17.5 Z"
  /\ path_d [pt 0 0; pt 30 40] (PyFloat (S754_zero false)) (PyInt 0) (PyInt 0)
     = Ok "M 0.0,0.0 L 0.0,0.0 Z".
Proof.
  split.
  - apply (path_d_total [pt 0 0; pt 30 40] (float_lit (-1) 2) (PyInt 0)
             (PyFloat (float_lit 5 2))); [cbn; lia | reflexivity ..].
  - split; vm_compute; reflexivity.
Defined.

(** C2, the claim as stated fails: the outline does not start at (0,0),
    and the first transformed point of the mark at scale 0.8 and offset
    (10,10) is not (10,10); the text does not open with a move to it. *)
Lemma mark_first_point_counterexample :
  hd_error n_points <> Some (pt 0 0)
  /\ hd_error (map (transformed (float_lit 8 10) (PyInt 10) (PyInt 10)) n_points)
     <> Some (float_value (PyInt 10), float_value (PyInt 10))
  /\ (exists d, get_n_mark_path f0_8 (PyInt 10) (PyInt 10) = Ok d
               /\ starts_with "M 10.0,10.0" d = false
               /\ starts_with "M 10,10" d = false).
Proof.
  split; [vm_compute; discriminate |].
  split; [vm_compute; discriminate |].
  eexists. split; [vm_compute; reflexivity |].
  split; vm_compute; reflexivity.
Qed.

(** C2, amended: the outline has ten points and starts at (0,100); at scale
    0.8 and offset (10,10) its first transformed point is (10,90), and it
    is the second point, (0,0), that goes to (10,10). *)
Theorem mark_first_point :
  length n_points = 10%nat
  /\ hd_error n_points = Some (pt 0 100)
  /\ nth_error n_points 1 = Some (pt 0 0)
  /\ (exists a b c d rest,
        map (transformed (float_lit 8 10) (PyInt 10) (PyInt 10)) n_points
        = (a, b) :: (c, d) :: rest
        /\ float_is a 10 1 /\ float_is b 90 1
        /\ float_is c 10 1 /\ float_is d 10 1)
  /\ get_n_mark_path f0_8 (PyInt 10) (PyInt 10)
     = Ok ("M 10.0,90.0 L 10.0,10.0 L 34.0,10.0 L 66.0,66.0 L 66.0,10.0 "
           +:+ "L 90.0,10.0 L 90.0,90.0 L 66.0,90.0 L 34.0,34.0 L 34.0,90.0 Z").
Proof.
  split; [reflexivity |]. split; [reflexivity |]. split; [reflexivity |].
  split.
  - vm_compute. do 5 eexists. split; [reflexivity |]. repeat split; reflexivity.
  - vm_compute. reflexivity.
Qed.

(** ** Running the writes *)

Lemma world_eq (w w' : world) :
  dirs w = dirs w' -> files w = files w' -> unwritable w = unwritable w' ->
  no_space w = no_space w' -> stdout w = stdout w' -> calls w = calls w' ->
  w = w'.
Proof. destruct w, w'; cbn; intros; subst; reflexivity. Qed.

Lemma after_docs_nil w : after_docs w [] = w.
Proof. apply world_eq; cbn; rewrite ?app_nil_r; reflexivity. Qed.

Lemma run_write_docs_cons d l w :
  run (write_docs (d :: l)) w =
  match sys_open (log (SysOpen (doc_path d)) w) (doc_path d) with
  | Err e => (Err e, log (SysOpen (doc_path d)) w)
  | Ok w1 =>
      match sys_write (log (SysWrite (doc_path d) (doc_text d)) w1)
                      (doc_path d) (doc_text d) with
      | Err e => (Err e, log (SysWrite (doc_path d) (doc_text d)) w1)
      | Ok w2 => run (write_docs l) (sys_print (log (SysPrint (doc_line d)) w2) (doc_line d))
      end
  end.
Proof. reflexivity. Qed.

Lemma run_write_docs_step d l w :
  can_write w (doc_path d) = true ->
  run (write_docs (d :: l)) w = run (write_docs l) (after_docs w [d]).
Proof.
  intros Hc. rewrite run_write_docs_cons.
  unfold can_write in Hc.
  repeat (apply andb_true_iff in Hc as [Hc ?]).
  unfold sys_open.
  change (is_file (log _ w)) with (is_file w).
  change (is_dir (log _ w)) with (is_dir w).
  change (unwritable (log _ w)) with (unwritable w).
  assert (Hd : (negb (String.eqb (dirname (doc_path d)) EmptyString)
                && is_file w (dirname (doc_path d))) = false
             /\ (negb (String.eqb (dirname (doc_path d)) EmptyString)
                && negb (is_dir w (dirname (doc_path d)))) = false).
  { destruct (String.eqb (dirname (doc_path d)) EmptyString); [now split |].
    cbn [orb] in Hc. apply andb_true_iff in Hc as [Hf Hdir].
    destruct (is_file w (dirname (doc_path d))); [discriminate |].
    destruct (is_dir w (dirname (doc_path d))); [now split | discriminate]. }
  destruct Hd as [-> ->].
  destruct (is_dir w (doc_path d)); [discriminate |].
  destruct (bool_decide (doc_path d ∈ unwritable w)); [discriminate |].
  unfold sys_write. cbn [no_space log set_files].
  destruct (bool_decide (doc_path d ∈ no_space w)); [discriminate |].
  f_equal. apply world_eq; cbn.
  - reflexivity.
  - apply insert_insert_eq.
  - reflexivity.
  - reflexivity.
  - reflexivity.
  - now rewrite <- !app_assoc.
Qed.

Lemma sys_open_log c w p :
  sys_open (log c w) p =
  match sys_open w p with
  | Ok w1 => Ok (log c w1)
  | Err e => Err e
  end.
Proof.
  unfold sys_open.
  change (is_file (log c w)) with (is_file w).
  change (is_dir (log c w)) with (is_dir w).
  change (unwritable (log c w)) with (unwritable w).
  repeat match goal with
         | |- context [if ?b then _ else _] => destruct b
         end; reflexivity.
Qed.

Lemma run_write_docs_stop d l w :
  can_write w (doc_path d) = false ->
  exists e w', run (write_docs (d :: l)) w = (Err e, w') /\ failed_at w d e w'.
Proof.
  intros Hc. rewrite run_write_docs_cons.
  rewrite sys_open_log.
  destruct (sys_open w (doc_path d)) as [w1|e] eqn:Hopen.
  - (* the open went through, so the device is full *)
    unfold sys_open in Hopen. unfold can_write in Hc.
    destruct (negb (String.eqb (dirname (doc_path d)) EmptyString)
              && is_file w (dirname (doc_path d))) eqn:E1; [discriminate |].
    destruct (negb (String.eqb (dirname (doc_path d)) EmptyString)
              && negb (is_dir w (dirname (doc_path d)))) eqn:E2; [discriminate |].
    destruct (is_dir w (doc_path d)) eqn:E3; [discriminate |].
    destruct (bool_decide (doc_path d ∈ unwritable w)) eqn:E4; [discriminate |].
    injection Hopen as <-.
    assert (Hfull : bool_decide (doc_path d ∈ no_space w) = true).
    { destruct (bool_decide (doc_path d ∈ no_space w)); [reflexivity |].
      destruct (String.eqb (dirname (doc_path d)) EmptyString);
        destruct (is_file w (dirname (doc_path d)));
        destruct (is_dir w (dirname (doc_path d))); discriminate. }
    unfold sys_write. cbn [no_space log set_files]. rewrite Hfull.
    eexists _, _. split; [reflexivity |]. right. split; reflexivity.
  - eexists _, _. split; [reflexivity |]. left. split; [exact Hopen | reflexivity].
Qed.

Lemma lookup_write_files l (m : gmap string string) k :
  write_files l m !! k =
  match last_text k l with
  | Some t => Some t
  | None => m !! k
  end.
Proof.
  revert m. induction l as [|d l IH]; intros m; [reflexivity |].
  cbn [write_files last_text]. rewrite IH.
  destruct (last_text k l); [reflexivity |].
  destruct (String.eqb_spec (doc_path d) k) as [->|Hne].
  - apply lookup_insert_eq.
  - now apply lookup_insert_ne.
Qed.

Lemma last_text_none k l :
  forallb (fun d => negb (String.eqb (doc_path d) k)) l = true ->
  last_text k l = None.
Proof.
  induction l as [|d l IH]; [reflexivity |].
  cbn [forallb last_text]. intros H. apply andb_true_iff in H as [Hd Hl].
  rewrite (IH Hl). destruct (String.eqb (doc_path d) k); [discriminate | reflexivity].
Qed.

Lemma after_docs_cons w d l :
  after_docs (after_docs w [d]) l = after_docs w (d :: l).
Proof.
  apply world_eq; cbn [after_docs dirs files unwritable no_space stdout calls
                         write_files map flat_map]; try reflexivity.
  - now rewrite <- app_assoc.
  - rewrite <- !app_assoc. reflexivity.
Qed.

Lemma can_write_after_one w d q :
  dirname q <> doc_path d ->
  can_write (after_docs w [d]) q = can_write w q.
Proof.
  intros Hne. unfold can_write, is_file, is_dir.
  cbn [after_docs dirs files unwritable no_space write_files].
  rewrite lookup_insert_ne by congruence. reflexivity.
Qed.

Lemma can_write_after_same_dir D w d l :
  negb (String.eqb (doc_path d) D) = true ->
  in_dir D l = true ->
  forallb (fun x => can_write (after_docs w [d]) (doc_path x)) l
  = forallb (fun x => can_write w (doc_path x)) l.
Proof.
  intros Hd. induction l as [|x l IH]; [reflexivity |].
  cbn [in_dir forallb]. intros H. apply andb_true_iff in H as [Hx Hl].
  apply andb_true_iff in Hx as [Hx _]. apply String.eqb_eq in Hx.
  rewrite (IH Hl). f_equal. apply can_write_after_one.
  rewrite Hx. intros ->. now rewrite String.eqb_refl in Hd.
Qed.

Lemma run_write_docs_cases D l w :
  in_dir D l = true ->
  (forallb (fun d => can_write w (doc_path d)) l = true
   /\ run (write_docs l) w = (Ok tt, after_docs w l))
  \/ (exists done d rest e w',
        l = done ++ d :: rest
        /\ forallb (fun d => can_write w (doc_path d)) done = true
        /\ can_write w (doc_path d) = false
        /\ run (write_docs l) w = (Err e, w')
        /\ failed_at (after_docs w done) d e w').
Proof.
  revert w. induction l as [|d l IH]; intros w HD.
  - left. split; [reflexivity |]. now rewrite after_docs_nil.
  - cbn [in_dir forallb] in HD. apply andb_true_iff in HD as [Hd Hl].
    apply andb_true_iff in Hd as [_ Hd].
    destruct (can_write w (doc_path d)) eqn:Hc.
    + rewrite (run_write_docs_step d l w Hc).
      destruct (IH (after_docs w [d]) Hl) as [[Hall Hrun] | Hfail].
      * left. cbn [forallb]. rewrite Hc.
        rewrite (can_write_after_same_dir D w d l Hd Hl) in Hall.
        split; [exact Hall |]. now rewrite Hrun, after_docs_cons.
      * destruct Hfail as (done & x & rest & e & w' & -> & Hdone & Hx & Hrun & Hat).
        right. exists (d :: done), x, rest, e, w'.
        assert (HD' : in_dir D done = true /\ String.eqb (dirname (doc_path x)) D = true).
        { unfold in_dir in Hl. rewrite forallb_app in Hl.
          apply andb_true_iff in Hl as [H1 H2]. cbn [forallb] in H2.
          apply andb_true_iff in H2 as [H2 _]. apply andb_true_iff in H2 as [H2 _].
          now split. }
        destruct HD' as [HDd HDx].
        rewrite (can_write_after_same_dir D w d done Hd HDd) in Hdone.
        rewrite can_write_after_one in Hx.
        2:{ apply String.eqb_eq in HDx. rewrite HDx. intros ->.
            now rewrite String.eqb_refl in Hd. }
        rewrite after_docs_cons in Hat.
        repeat split; try assumption.
        cbn [forallb]. now rewrite Hc.
    + destruct (run_write_docs_stop d l w Hc) as (e & w' & Hrun & Hat).
      right. exists [], d, l, e, w'. rewrite after_docs_nil.
      repeat split; assumption.
Qed.

(** ** The whole run *)

Lemma run_main w :
  run main w =
  if sys_exists w OUTPUT_DIR then
    run (write_docs documents) (log (SysExists OUTPUT_DIR) w)
  else if bool_decide (OUTPUT_DIR ∈ unwritable w) then
    (Err (PermissionError OUTPUT_DIR),
     log (SysMakedirs OUTPUT_DIR) (log (SysExists OUTPUT_DIR) w))
  else
    run (write_docs documents)
        (set_dirs (log (SysMakedirs OUTPUT_DIR) (log (SysExists OUTPUT_DIR) w))
                  ({[OUTPUT_DIR]} ∪ dirs w)).
Proof.
  unfold main. rewrite generate_assets_shape. cbn [run].
  destruct (sys_exists w OUTPUT_DIR) eqn:Hex; cbn [negb pbind os_makedirs run].
  - reflexivity.
  - unfold sys_makedirs.
    change (sys_exists (log _ (log _ w))) with (sys_exists w). rewrite Hex.
    change (unwritable (log _ (log _ w))) with (unwritable w).
    destruct (bool_decide (OUTPUT_DIR ∈ unwritable w)); reflexivity.
Qed.

Lemma documents_in_dir : in_dir OUTPUT_DIR documents = true.
Proof. vm_compute. reflexivity. Qed.

Lemma last_text_not_in k l :
  k ∉ map doc_path l -> last_text k l = None.
Proof.
  induction l as [|d l IH]; [reflexivity |].
  cbn [map last_text]. intros Hk.
  apply not_elem_of_cons in Hk as [Hd Hl].
  rewrite (IH Hl).
  destruct (String.eqb_spec (doc_path d) k); [congruence | reflexivity].
Qed.

Lemma last_text_elem l d :
  NoDup (map doc_path l) -> d ∈ l ->
  last_text (doc_path d) l = Some (doc_text d).
Proof.
  induction l as [|x l IH]; intros Hnd Hd.
  - inversion Hd.
  - cbn [map] in Hnd. apply NoDup_cons in Hnd as [Hx Hl].
    cbn [last_text]. apply elem_of_cons in Hd as [->|Hd].
    + rewrite (last_text_not_in _ _ Hx). now rewrite String.eqb_refl.
    + now rewrite (IH Hl Hd).
Qed.

Lemma asset_names_nodup : NoDup asset_names.
Proof. apply (bool_decide_unpack _). vm_compute. reflexivity. Qed.

Lemma documents_nodup : NoDup (map doc_path documents).
Proof.
  rewrite documents_paths.
  apply (bool_decide_unpack _). vm_compute. reflexivity.
Qed.

Lemma can_write_after_docs D w l q :
  in_dir D l = true -> dirname q = D ->
  can_write (after_docs w l) q = can_write w q.
Proof.
  intros HD Hq. unfold can_write, is_file, is_dir.
  cbn [after_docs dirs files unwritable no_space].
  rewrite lookup_write_files, Hq, last_text_none; [reflexivity |].
  unfold in_dir in HD. rewrite forallb_forall in HD |- *.
  intros d Hd. specialize (HD d Hd). now apply andb_true_iff in HD as [_ HD].
Qed.

(** What a successful run went through: the directory step leaves a world
    [w1] in which every document can be written, and the run ends in the
    world after the nine writes. *)
Lemma run_main_ok w w' :
  run main w = (Ok tt, w') ->
  exists w1,
    w' = after_docs w1 documents
    /\ forallb (fun d => can_write w1 (doc_path d)) documents = true
    /\ files w1 = files w
    /\ unwritable w1 = unwritable w
    /\ no_space w1 = no_space w
    /\ stdout w1 = stdout w
    /\ ((sys_exists w OUTPUT_DIR = true /\ dirs w1 = dirs w
         /\ calls w1 = calls w ++ [SysExists OUTPUT_DIR])
        \/ (sys_exists w OUTPUT_DIR = false /\ dirs w1 = {[OUTPUT_DIR]} ∪ dirs w
            /\ calls w1 = calls w ++ [SysExists OUTPUT_DIR; SysMakedirs OUTPUT_DIR])).
Proof.
  rewrite run_main. intros Hrun.
  assert (Hcases : forall w1, run (write_docs documents) w1 = (Ok tt, w') ->
            w' = after_docs w1 documents
            /\ forallb (fun d => can_write w1 (doc_path d)) documents = true).
  { intros w1 H1.
    destruct (run_write_docs_cases OUTPUT_DIR documents w1 documents_in_dir)
      as [[Hall Hok] | (done & d & rest & e & w2 & _ & _ & _ & Herr & _)].
    - rewrite Hok in H1. injection H1 as <-. now split.
    - rewrite Herr in H1. discriminate H1. }
  destruct (sys_exists w OUTPUT_DIR) eqn:Hex.
  - destruct (Hcases _ Hrun) as [-> Hall].
    eexists. repeat split; [exact Hall | left; repeat split].
  - destruct (bool_decide (OUTPUT_DIR ∈ unwritable w)); [discriminate Hrun |].
    destruct (Hcases _ Hrun) as [-> Hall].
    eexists. repeat split; [exact Hall | right; repeat split].
    cbn. now rewrite <- app_assoc.
Qed.

Lemma can_write_dir w p :
  can_write w p = true -> dirname p = OUTPUT_DIR ->
  is_dir w OUTPUT_DIR = true /\ is_file w OUTPUT_DIR = false.
Proof.
  unfold can_write. intros H Hp. rewrite Hp in H.
  do 3 (apply andb_true_iff in H as [H _]).
  change (String.eqb OUTPUT_DIR EmptyString) with false in H. cbn [orb] in H.
  apply andb_true_iff in H as [Hf Hd]. split; [exact Hd |].
  now destruct (is_file w OUTPUT_DIR).
Qed.

Lemma documents_first :
  exists d l, documents = d :: l /\ dirname (doc_path d) = OUTPUT_DIR.
Proof.
  destruct documents as [|d l] eqn:E; [vm_compute in E; discriminate E |].
  exists d, l. split; [reflexivity |].
  pose proof documents_in_dir as H. rewrite E in H. cbn [in_dir forallb] in H.
  apply andb_true_iff in H as [H _]. apply andb_true_iff in H as [H _].
  now apply String.eqb_eq in H.
Qed.

Lemma elem_of_documents_dir d :
  d ∈ documents -> dirname (doc_path d) = OUTPUT_DIR.
Proof.
  intros Hd. pose proof documents_in_dir as H. unfold in_dir in H.
  rewrite forallb_forall in H. apply list_elem_of_In in Hd.
  specialize (H d Hd). apply andb_true_iff in H as [H _].
  now apply String.eqb_eq in H.
Qed.

Lemma write_files_twice l (m : gmap string string) :
  write_files l (write_files l m) = write_files l m.
Proof.
  apply map_eq. intros k. rewrite !lookup_write_files.
  destruct (last_text k l); reflexivity.
Qed.

Lemma run_write_docs_all D l w :
  in_dir D l = true ->
  forallb (fun d => can_write w (doc_path d)) l = true ->
  run (write_docs l) w = (Ok tt, after_docs w l).
Proof.
  intros HD Hall.
  destruct (run_write_docs_cases D l w HD)
    as [[_ Hok] | (done & d & rest & e & w' & -> & _ & Hd & _ & _)];
    [exact Hok |].
  rewrite forallb_app in Hall. apply andb_true_iff in Hall as [_ Hall].
  cbn [forallb] in Hall. rewrite Hd in Hall. discriminate Hall.
Qed.

Lemma run_main_ok_files w w' d :
  run main w = (Ok tt, w') -> d ∈ documents ->
  files w' !! doc_path d = Some (doc_text d).
Proof.
  intros Hrun Hd.
  destruct (run_main_ok w w' Hrun) as (w1 & -> & _).
  cbn [after_docs files]. rewrite lookup_write_files.
  now rewrite (last_text_elem documents d documents_nodup Hd).
Qed.

(** C4: generation is deterministic and idempotent.  Two runs that go
    through, from whatever two worlds, leave the same text in each of the
    files of the script; and a further run on the outcome of a run goes
    through and leaves every file, and the directories, as they are. *)
Theorem generation_deterministic_idempotent (w1 w2 w1' w2' : world) :
  run main w1 = (Ok tt, w1') ->
  run main w2 = (Ok tt, w2') ->
  (forall p, p ∈ asset_paths ->
     exists text, files w1' !! p = Some text /\ files w2' !! p = Some text)
  /\ (exists w1'',
        run main w1' = (Ok tt, w1'')
        /\ files w1'' = files w1'
        /\ dirs w1'' = dirs w1').
Proof.
  intros H1 H2. split.
  - intros p Hp. rewrite <- documents_paths in Hp.
    apply list_elem_of_fmap in Hp as (d & -> & Hd).
    exists (doc_text d). split; eapply run_main_ok_files; eassumption.
  - destruct (run_main_ok w1 w1' H1) as (wa & -> & Hall & _).
    destruct documents_first as (d0 & l0 & Hdocs & Hdir0).
    assert (Hc0 : can_write wa (doc_path d0) = true).
    { rewrite Hdocs in Hall. cbn [forallb] in Hall.
      now apply andb_true_iff in Hall as [Hc _]. }
    destruct (can_write_dir wa _ Hc0 Hdir0) as [Hisdir _].
    rewrite run_main.
    assert (Hex : sys_exists (after_docs wa documents) OUTPUT_DIR = true).
    { unfold sys_exists.
      change (is_dir (after_docs wa documents) OUTPUT_DIR) with (is_dir wa OUTPUT_DIR).
      now rewrite Hisdir. }
    rewrite Hex.
    rewrite (run_write_docs_all OUTPUT_DIR documents _ documents_in_dir).
    + eexists. split; [reflexivity |]. split; [| reflexivity].
      cbn [after_docs files log]. apply write_files_twice.
    + rewrite forallb_forall in Hall |- *. intros d Hd.
      change (can_write (log (SysExists OUTPUT_DIR) (after_docs wa documents)) (doc_path d))
        with (can_write (after_docs wa documents) (doc_path d)).
      rewrite (can_write_after_docs OUTPUT_DIR); [now apply Hall | apply documents_in_dir |].
      apply elem_of_documents_dir. now apply list_elem_of_In.
Qed.

Lemma generation_deterministic_idempotent_witness :
  (forall p, p ∈ asset_paths ->
     exists text, files fresh_outcome !! p = Some text
                  /\ files populated_outcome !! p = Some text)
  /\ (exists w'', run main fresh_outcome = (Ok tt, w'')
                 /\ files w'' = files fresh_outcome
                 /\ dirs w'' = dirs fresh_outcome).
Proof.
  apply (generation_deterministic_idempotent
           empty_world populated_world fresh_outcome populated_outcome).
  - vm_compute. reflexivity.
  - vm_compute. reflexivity.
Defined.

(** C7, the claim as stated fails: the run leaves nine files in the
    directory, not eight. *)
Lemma eight_assets_counterexample :
  ~ (length (map_to_list (files fresh_outcome)) = 8%nat).
Proof. vm_compute. discriminate. Qed.

(** C7, amended: the entry point takes no argument and writes nine files
    (eight kinds of asset, the ornate logo in a light and a dark file).
    From a world in which the output directory does not exist and may be
    created, and the nine files may be written, the run goes through: it
    asks for the directory, creates it, and only then opens, writes and
    reports the nine files in turn; afterwards the directory and the nine
    files are there. *)
Theorem main_creates_directory_and_files (w : world) :
  sys_exists w OUTPUT_DIR = false ->
  bool_decide (OUTPUT_DIR ∈ unwritable w) = false ->
  forallb (file_free w) asset_paths = true ->
  exists w',
    run main w = (Ok tt, w')
    /\ calls w' = calls w ++ SysExists OUTPUT_DIR :: SysMakedirs OUTPUT_DIR
                            :: flat_map doc_calls documents
    /\ map doc_path documents = asset_paths
    /\ length asset_paths = 9%nat
    /\ NoDup asset_paths
    /\ is_dir w' OUTPUT_DIR = true
    /\ forallb (is_file w') asset_paths = true.
Proof.
  intros Hex Hdir Hfree.
  rewrite run_main, Hex, Hdir.
  set (w1 := set_dirs _ _).
  assert (Hd1 : is_dir w1 OUTPUT_DIR = true).
  { unfold is_dir, w1. cbn [set_dirs dirs]. apply bool_decide_eq_true.
    apply elem_of_union_l, elem_of_singleton. reflexivity. }
  assert (Hf1 : is_file w1 OUTPUT_DIR = false).
  { unfold sys_exists in Hex. apply orb_false_iff in Hex as [_ Hex]. exact Hex. }
  assert (Hall : forallb (fun d => can_write w1 (doc_path d)) documents = true).
  { rewrite forallb_forall. intros d Hd.
    assert (Hp : In (doc_path d) asset_paths).
    { rewrite <- documents_paths. now apply in_map. }
    rewrite forallb_forall in Hfree. specialize (Hfree _ Hp).
    unfold file_free in Hfree.
    apply andb_true_iff in Hfree as [Hfree Hns].
    apply andb_true_iff in Hfree as [Hnd Hnu].
    apply list_elem_of_In in Hd.
    pose proof (elem_of_documents_dir d Hd) as Hdn.
    assert (Hne : doc_path d <> OUTPUT_DIR).
    { pose proof documents_in_dir as H. unfold in_dir in H.
      rewrite forallb_forall in H. apply list_elem_of_In in Hd.
      specialize (H d Hd). apply andb_true_iff in H as [_ H].
      intros E. rewrite E, String.eqb_refl in H. discriminate H. }
    unfold can_write. rewrite Hdn, Hd1, Hf1.
    change (unwritable w1) with (unwritable w).
    change (no_space w1) with (no_space w).
    rewrite Hnu, Hns.
    assert (Hpd : is_dir w1 (doc_path d) = false).
    { unfold is_dir, w1. cbn [set_dirs dirs]. apply bool_decide_eq_false.
      unfold is_dir in Hnd. apply negb_true_iff, bool_decide_eq_false in Hnd.
      rewrite elem_of_union, elem_of_singleton.
      intros [E|E]; [exact (Hne E) | exact (Hnd E)]. }
    rewrite Hpd. reflexivity. }
  rewrite (run_write_docs_all OUTPUT_DIR documents w1 documents_in_dir Hall).
  eexists. split; [reflexivity |].
  split.
  { unfold w1. cbn [after_docs calls set_dirs log]. now rewrite <- !app_assoc. }
  split; [apply documents_paths |].
  split; [reflexivity |].
  split. { rewrite <- documents_paths. apply documents_nodup. }
  split; [exact Hd1 |].
  rewrite forallb_forall. intros p Hp.
  rewrite <- documents_paths in Hp. apply in_map_iff in Hp as (d & <- & Hd).
  unfold is_file. cbn [after_docs files]. rewrite lookup_write_files.
  apply list_elem_of_In in Hd.
  now rewrite (last_text_elem documents d documents_nodup Hd).
Qed.

Lemma main_creates_directory_and_files_witness :
  exists w',
    run main empty_world = (Ok tt, w')
    /\ calls w' = calls empty_world ++ SysExists OUTPUT_DIR :: SysMakedirs OUTPUT_DIR
                                     :: flat_map doc_calls documents
    /\ map doc_path documents = asset_paths
    /\ length asset_paths = 9%nat
    /\ NoDup asset_paths
    /\ is_dir w' OUTPUT_DIR = true
    /\ forallb (is_file w') asset_paths = true.
Proof.
  apply (main_creates_directory_and_files empty_world).
  - vm_compute. reflexivity.
  - vm_compute. reflexivity.
  - vm_compute. reflexivity.
Defined.

Lemma write_docs_failure (D : string) (l : list document) (w1 w' : world) (e : exn) :
  in_dir D l = true ->
  NoDup (map doc_path l) ->
  run (write_docs l) w1 = (Err e, w') ->
  exists done d rest fail,
    l = done ++ d :: rest
    /\ (exists w0, sys_open w0 (doc_path d) = Err e
                   \/ sys_write w0 (doc_path d) (doc_text d) = Err e)
    /\ (forall x, x ∈ done -> files w' !! doc_path x = Some (doc_text x))
    /\ (forall x, x ∈ rest -> files w' !! doc_path x = files w1 !! doc_path x)
    /\ calls w' = calls w1 ++ flat_map doc_calls done ++ fail
    /\ (fail = [SysOpen (doc_path d)]
        \/ fail = [SysOpen (doc_path d); SysWrite (doc_path d) (doc_text d)]).
Proof.
  intros HD Hnd Hrun.
  destruct (run_write_docs_cases D l w1 HD)
    as [[_ Hok] | (done & d & rest & e0 & w0 & Hsplit & _ & _ & Herr & Hat)].
  { rewrite Hok in Hrun. discriminate Hrun. }
  rewrite Herr in Hrun. injection Hrun as -> ->.
  rewrite Hsplit, map_app in Hnd. cbn [map] in Hnd.
  apply NoDup_app in Hnd as (Hnd_done & Hdisj & Hnd_tail).
  apply NoDup_cons in Hnd_tail as [Hd_rest _].
  assert (Hdone : forall x, x ∈ done -> doc_path x <> doc_path d).
  { intros x Hx E. apply (Hdisj (doc_path x)).
    - apply list_elem_of_fmap. now exists x.
    - rewrite E. apply elem_of_cons. now left. }
  assert (Hrest : forall x, x ∈ rest ->
            doc_path x <> doc_path d /\ doc_path x ∉ map doc_path done).
  { intros x Hx. split.
    - intros E. apply Hd_rest. rewrite <- E. apply list_elem_of_fmap. now exists x.
    - intros Hin. apply (Hdisj _ Hin). apply elem_of_cons. right.
      apply list_elem_of_fmap. now exists x. }
  assert (Hlook_done : forall x, x ∈ done ->
            write_files done (files w1) !! doc_path x = Some (doc_text x)).
  { intros x Hx. rewrite lookup_write_files.
    now rewrite (last_text_elem done x Hnd_done Hx). }
  assert (Hlook_rest : forall x, x ∈ rest ->
            write_files done (files w1) !! doc_path x = files w1 !! doc_path x).
  { intros x Hx. rewrite lookup_write_files.
    now rewrite (last_text_not_in _ _ (proj2 (Hrest x Hx))). }
  exists done, d, rest.
  destruct Hat as [[Hopen ->] | [-> ->]].
  - exists [SysOpen (doc_path d)].
    split; [exact Hsplit |]. split; [exists (after_docs w1 done); now left |].
    split; [exact Hlook_done |]. split; [exact Hlook_rest |].
    split; [| now left].
    cbn [log after_docs calls]. now rewrite <- app_assoc.
  - exists [SysOpen (doc_path d); SysWrite (doc_path d) (doc_text d)].
    split; [exact Hsplit |].
    split.
    { exists (World ∅ ∅ ∅ {[doc_path d]} [] []). right.
      unfold sys_write. cbn [no_space].
      rewrite bool_decide_eq_true_2; [reflexivity |]. now apply elem_of_singleton. }
    split.
    { intros x Hx. cbn [log set_files files after_docs].
      rewrite lookup_insert_ne by (intros E; now apply (Hdone x Hx)).
      now apply Hlook_done. }
    split.
    { intros x Hx. cbn [log set_files files after_docs].
      rewrite lookup_insert_ne by (intros E; now apply (proj1 (Hrest x Hx))).
      now apply Hlook_rest. }
    split; [| now right].
    cbn [log set_files after_docs calls]. now rewrite <- !app_assoc.
Qed.

(** C8: a failing call ends the run with its own error.  When the run
    fails, either the directory could not be created and no file was
    touched, or the documents split into those written, the one whose open
    or write raised the error the run ends with, and the rest: the written
    ones hold their full text, the rest are as they were before the run,
    and the log of calls ends with the failing call. *)
Theorem failed_write_stops_run (w w' : world) (e : exn) :
  run main w = (Err e, w') ->
  (e = PermissionError OUTPUT_DIR
   /\ files w' = files w
   /\ calls w' = calls w ++ [SysExists OUTPUT_DIR; SysMakedirs OUTPUT_DIR])
  \/ (exists done d rest pre fail,
        documents = done ++ d :: rest
        /\ (exists w0, sys_open w0 (doc_path d) = Err e
                       \/ sys_write w0 (doc_path d) (doc_text d) = Err e)
        /\ (forall x, x ∈ done -> files w' !! doc_path x = Some (doc_text x))
        /\ (forall x, x ∈ rest -> files w' !! doc_path x = files w !! doc_path x)
        /\ calls w' = calls w ++ pre ++ flat_map doc_calls done ++ fail
        /\ (pre = [SysExists OUTPUT_DIR]
            \/ pre = [SysExists OUTPUT_DIR; SysMakedirs OUTPUT_DIR])
        /\ (fail = [SysOpen (doc_path d)]
            \/ fail = [SysOpen (doc_path d); SysWrite (doc_path d) (doc_text d)])).
Proof.
  rewrite run_main. intros Hrun.
  destruct (sys_exists w OUTPUT_DIR).
  - right.
    destruct (write_docs_failure OUTPUT_DIR documents _ _ _
                documents_in_dir documents_nodup Hrun)
      as (done & d & rest & fail & Hs & He & Hd & Hr & Hc & Hf).
    exists done, d, rest, [SysExists OUTPUT_DIR], fail.
    repeat (split; [assumption |]). split; [| split; [now left | assumption]].
    rewrite Hc. cbn [log calls]. now rewrite <- !app_assoc.
  - destruct (bool_decide (OUTPUT_DIR ∈ unwritable w)).
    + left. injection Hrun as <- <-. split; [reflexivity |]. split; [reflexivity |].
      cbn [log calls]. now rewrite <- app_assoc.
    + right.
      destruct (write_docs_failure OUTPUT_DIR documents _ _ _
                  documents_in_dir documents_nodup Hrun)
        as (done & d & rest & fail & Hs & He & Hd & Hr & Hc & Hf).
      exists done, d, rest, [SysExists OUTPUT_DIR; SysMakedirs OUTPUT_DIR], fail.
      repeat (split; [assumption |]). split; [| split; [now right | assumption]].
      rewrite Hc. cbn [log set_dirs calls]. now rewrite <- !app_assoc.
Qed.

Lemma failed_write_stops_run_witness :
  (PermissionError "nebula-x-assets/nebula-x-wordmark.svg" = PermissionError OUTPUT_DIR
   /\ files protected_outcome = files protected_world
   /\ calls protected_outcome
      = calls protected_world ++ [SysExists OUTPUT_DIR; SysMakedirs OUTPUT_DIR])
  \/ (exists done d rest pre fail,
        documents = done ++ d :: rest
        /\ (exists w0,
              sys_open w0 (doc_path d)
              = Err (PermissionError "nebula-x-assets/nebula-x-wordmark.svg")
              \/ sys_write w0 (doc_path d) (doc_text d)
                 = Err (PermissionError "nebula-x-assets/nebula-x-wordmark.svg"))
        /\ (forall x, x ∈ done ->
              files protected_outcome !! doc_path x = Some (doc_text x))
        /\ (forall x, x ∈ rest ->
              files protected_outcome !! doc_path x = files protected_world !! doc_path x)
        /\ calls protected_outcome
           = calls protected_world ++ pre ++ flat_map doc_calls done ++ fail
        /\ (pre = [SysExists OUTPUT_DIR]
            \/ pre = [SysExists OUTPUT_DIR; SysMakedirs OUTPUT_DIR])
        /\ (fail = [SysOpen (doc_path d)]
            \/ fail = [SysOpen (doc_path d); SysWrite (doc_path d) (doc_text d)])).
Proof.
  apply (failed_write_stops_run protected_world protected_outcome
           (PermissionError "nebula-x-assets/nebula-x-wordmark.svg")).
  vm_compute. reflexivity.
Defined.

(** The run in the protected world: two files written, the third refused,
    its old text and the six further files untouched. *)
Example protected_run :
  fst (run main protected_world)
  = Err (PermissionError "nebula-x-assets/nebula-x-wordmark.svg")
  /\ map fst (map_to_list (files protected_outcome))
     = [ "nebula-x-assets/nebula-x-wordmark.svg";
         "nebula-x-assets/nebula-x-splash.svg";
         "nebula-x-assets/nebula-x-mark.svg" ]
  /\ files protected_outcome !! "nebula-x-assets/nebula-x-wordmark.svg" = Some "old"
  /\ length (calls protected_outcome) = 8%nat.
Proof. vm_compute. repeat split; reflexivity. Qed.

Lemma run_main_ok_last w w' p t :
  run main w = (Ok tt, w') -> last_text p documents = Some t ->
  files w' !! p = Some t.
Proof.
  intros Hrun Hp. destruct (run_main_ok w w' Hrun) as (w1 & -> & _).
  cbn [after_docs files]. now rewrite lookup_write_files, Hp.
Qed.

(** C6: after a run that goes through, [favicon.svg] and
    [nebula-x-mark.svg] hold the same document: [create_svg] was given the
    width 100, the height 100 and the same body for both. *)
Theorem favicon_is_mark (w w' : world) :
  run main w = (Ok tt, w') ->
  files w' !! os_path_join OUTPUT_DIR "nebula-x-mark.svg"
    = Some (svg_text (PyInt 100) (PyInt 100) mark_content)
  /\ files w' !! os_path_join OUTPUT_DIR "favicon.svg"
     = Some (svg_text (PyInt 100) (PyInt 100) mark_content)
  /\ files w' !! os_path_join OUTPUT_DIR "favicon.svg"
     = files w' !! os_path_join OUTPUT_DIR "nebula-x-mark.svg".
Proof.
  intros Hrun.
  assert (H1 : files w' !! os_path_join OUTPUT_DIR "nebula-x-mark.svg"
               = Some (svg_text (PyInt 100) (PyInt 100) mark_content)).
  { apply (run_main_ok_last w w' _ _ Hrun). vm_compute. reflexivity. }
  assert (H2 : files w' !! os_path_join OUTPUT_DIR "favicon.svg"
               = Some (svg_text (PyInt 100) (PyInt 100) mark_content)).
  { apply (run_main_ok_last w w' _ _ Hrun). vm_compute. reflexivity. }
  split; [exact H1 |]. split; [exact H2 |]. now rewrite H1, H2.
Qed.

Lemma favicon_is_mark_witness :
  files populated_outcome !! os_path_join OUTPUT_DIR "nebula-x-mark.svg"
    = Some (svg_text (PyInt 100) (PyInt 100) mark_content)
  /\ files populated_outcome !! os_path_join OUTPUT_DIR "favicon.svg"
     = Some (svg_text (PyInt 100) (PyInt 100) mark_content)
  /\ files populated_outcome !! os_path_join OUTPUT_DIR "favicon.svg"
     = files populated_outcome !! os_path_join OUTPUT_DIR "nebula-x-mark.svg".
Proof.
  apply (favicon_is_mark populated_world populated_outcome).
  vm_compute. reflexivity.
Defined.

(** C3: at scale 0.5 the width that [get_wordmark_paths] returns is the sum
    of the advances 120, 100, 100, 100, 100, 120, 40 and 120, each times
    0.5: exactly 800/2 = 400, which exceeds zero; and after a run that goes
    through the wordmark file holds the document of width [int(width)] =
    400 and height 60. *)
Theorem wordmark_width (w w' : world) :
  run main w = (Ok tt, w') ->
  exists paths width,
    get_wordmark_paths f0_5 (PyInt 0) (PyInt 0) = Ok (paths, PyFloat width)
    /\ width = fold_left (fun x a => fadd x (fmul (float_value (PyInt a)) (float_lit 5 10)))
                         advances (float_value (PyInt 0))
    /\ float_is width (fold_right Z.add 0 advances) 2
    /\ SFltb (S754_zero false) width = true
    /\ int (PyFloat width) = Ok 400
    /\ files w' !! os_path_join OUTPUT_DIR "nebula-x-wordmark.svg"
       = Some (svg_text (PyInt 400) (PyInt 60) wordmark_content)
    /\ attribute "width" (svg_text (PyInt 400) (PyInt 60) wordmark_content) = Some "400"
    /\ attribute "height" (svg_text (PyInt 400) (PyInt 60) wordmark_content) = Some "60".
Proof.
  intros Hrun.
  destruct (get_wordmark_paths f0_5 (PyInt 0) (PyInt 0)) as [[paths [z|width]]|e] eqn:E;
    try (vm_compute in E; discriminate E).
  exists paths, width. split; [reflexivity |].
  assert (Hw : width = S754_finite false 7036874417766400 (-44)).
  { vm_compute in E. now injection E as _ <-. }
  split; [rewrite Hw; vm_compute; reflexivity |].
  split; [rewrite Hw; vm_compute; reflexivity |].
  split; [rewrite Hw; vm_compute; reflexivity |].
  split; [rewrite Hw; vm_compute; reflexivity |].
  split.
  { apply (run_main_ok_last w w' _ _ Hrun). vm_compute. reflexivity. }
  split; vm_compute; reflexivity.
Qed.

Lemma wordmark_width_witness :
  exists paths width,
    get_wordmark_paths f0_5 (PyInt 0) (PyInt 0) = Ok (paths, PyFloat width)
    /\ width = fold_left (fun x a => fadd x (fmul (float_value (PyInt a)) (float_lit 5 10)))
                         advances (float_value (PyInt 0))
    /\ float_is width (fold_right Z.add 0 advances) 2
    /\ SFltb (S754_zero false) width = true
    /\ int (PyFloat width) = Ok 400
    /\ files fresh_outcome !! os_path_join OUTPUT_DIR "nebula-x-wordmark.svg"
       = Some (svg_text (PyInt 400) (PyInt 60) wordmark_content)
    /\ attribute "width" (svg_text (PyInt 400) (PyInt 60) wordmark_content) = Some "400"
    /\ attribute "height" (svg_text (PyInt 400) (PyInt 60) wordmark_content) = Some "60".
Proof.
  apply (wordmark_width empty_world fresh_outcome).
  vm_compute. reflexivity.
Defined.

(** ** The document frame *)

Lemma take_until_app c (a r : string) :
  all_chars (fun x => negb (Ascii.eqb x c)) a = true ->
  take_until c (a +:+ String c r) = a.
Proof.
  induction a as [|x a' IH]; intros Ha.
  - cbn [String.append take_until]. now rewrite Ascii.eqb_refl.
  - cbn [all_chars] in Ha. apply andb_true_iff in Ha as [Hx Ha].
    cbn [String.append take_until].
    apply negb_true_iff in Hx. rewrite Hx. now rewrite (IH Ha).
Qed.

Lemma find_after_skip (pat a r : string) :
  match pat with
  | String p0 _ => all_chars (fun x => negb (Ascii.eqb p0 x)) a
  | EmptyString => false
  end = true ->
  find_after pat (a +:+ r) = find_after pat r.
Proof.
  destruct pat as [|p0 p]; [discriminate |].
  induction a as [|x a' IH]; intros Ha; [reflexivity |].
  cbn [all_chars] in Ha. apply andb_true_iff in Ha as [Hx Ha].
  apply negb_true_iff in Hx.
  cbn [String.append find_after strip_prefix]. rewrite Hx. now apply IH.
Qed.

Lemma num_char_plain c :
  num_char c = true ->
  negb (Ascii.eqb c dquote) = true /\ negb (Ascii.eqb " " c) = true.
Proof.
  destruct c as [[] [] [] [] [] [] [] []]; vm_compute; intros H;
    first [discriminate H | split; reflexivity].
Qed.

Lemma format_no_dquote v :
  all_chars (fun x => negb (Ascii.eqb x dquote)) (format v) = true.
Proof.
  apply (all_chars_weaken num_char); [| apply all_chars_format].
  intros c Hc. now destruct (num_char_plain c Hc).
Qed.

Lemma format_no_space v :
  all_chars (fun x => negb (Ascii.eqb " " x)) (format v) = true.
Proof.
  apply (all_chars_weaken num_char); [| apply all_chars_format].
  intros c Hc. now destruct (num_char_plain c Hc).
Qed.

Lemma svg_text_attributes (width height : num) (content : string) :
  attribute "width" (svg_text width height content) = Some (format width)
  /\ attribute "height" (svg_text width height content) = Some (format height)
  /\ attribute "viewBox" (svg_text width height content)
     = Some ("0 0 " +:+ format width +:+ " " +:+ format height).
Proof.
  unfold attribute, svg_text.
  pose proof (format_no_dquote width) as Wq.
  pose proof (format_no_space width) as Ws.
  pose proof (format_no_dquote height) as Hq.
  pose proof (format_no_space height) as Hs.
  set (W := format width) in *. set (H := format height) in *.
  set (tail := dq "' xmlns='http://www.w3.org/2000/svg'>" +:+ nl +:+ content +:+ nl +:+ "</svg>").
  split; [| split].
  - change (find_after (" " +:+ "width" +:+ dq "='")
              (dq "<svg width='" +:+ W +:+ dq "' height='" +:+ H
               +:+ dq "' viewBox='0 0 " +:+ W +:+ " " +:+ H +:+ tail))
      with (Some (W +:+ String dquote (" height=" +:+ String dquote
              (H +:+ dq "' viewBox='0 0 " +:+ W +:+ " " +:+ H +:+ tail)))).
    cbv beta iota. now rewrite take_until_app.
  - set (pat := " " +:+ "height" +:+ dq "='").
    change (find_after pat (dq "<svg width='" +:+ W +:+ dq "' height='" +:+ H
               +:+ dq "' viewBox='0 0 " +:+ W +:+ " " +:+ H +:+ tail))
      with (find_after pat (W +:+ dq "' height='" +:+ H
               +:+ dq "' viewBox='0 0 " +:+ W +:+ " " +:+ H +:+ tail)).
    rewrite find_after_skip by exact Ws.
    change (find_after pat (dq "' height='" +:+ H
               +:+ dq "' viewBox='0 0 " +:+ W +:+ " " +:+ H +:+ tail))
      with (Some (H +:+ String dquote (" viewBox=" +:+ String dquote
              ("0 0 " +:+ W +:+ " " +:+ H +:+ tail)))).
    cbv beta iota. now rewrite take_until_app.
  - set (pat := " " +:+ "viewBox" +:+ dq "='").
    change (find_after pat (dq "<svg width='" +:+ W +:+ dq "' height='" +:+ H
               +:+ dq "' viewBox='0 0 " +:+ W +:+ " " +:+ H +:+ tail))
      with (find_after pat (W +:+ dq "' height='" +:+ H
               +:+ dq "' viewBox='0 0 " +:+ W +:+ " " +:+ H +:+ tail)).
    rewrite find_after_skip by exact Ws.
    change (find_after pat (dq "' height='" +:+ H
               +:+ dq "' viewBox='0 0 " +:+ W +:+ " " +:+ H +:+ tail))
      with (find_after pat (H +:+ dq "' viewBox='0 0 " +:+ W +:+ " " +:+ H +:+ tail)).
    rewrite find_after_skip by exact Hs.
    change (find_after pat (dq "' viewBox='0 0 " +:+ W +:+ " " +:+ H +:+ tail))
      with (Some ("0 0 " +:+ W +:+ " " +:+ H
                  +:+ String dquote (" xmlns=" +:+ String dquote
                        ("http://www.w3.org/2000/svg" +:+ String dquote
                           (">" +:+ nl +:+ content +:+ nl +:+ "</svg>"))))).
    cbv beta iota. f_equal.
    rewrite <- (append_assoc " " H), <- (append_assoc W), <- (append_assoc "0 0 ").
    apply take_until_app.
    rewrite !all_chars_app, Wq, Hq. reflexivity.
Qed.

Lemma Forall2_of_forallb {A B} (P : A -> B -> Prop) (f : A -> B -> bool) :
  (forall a b, f a b = true -> P a b) ->
  forall l k, length l = length k ->
    forallb (fun p => f (fst p) (snd p)) (combine l k) = true ->
    Forall2 P l k.
Proof.
  intros Hf. induction l as [|a l IH]; intros [|b k] Hlen Hall;
    try discriminate Hlen; constructor.
  - cbn [combine forallb fst snd] in Hall.
    apply andb_true_iff in Hall as [Hab _]. now apply Hf.
  - cbn [combine forallb] in Hall. apply andb_true_iff in Hall as [_ Hall].
    apply IH; [now injection Hlen | exact Hall].
Qed.

(** C10: every document has the same root element.  For any width, height
    and content the text that [create_svg] writes declares that width, that
    height and the viewBox ["0 0 width height"]; and each of the nine texts
    the program writes is such a text, for the width and height of its
    asset. *)
Theorem svg_frame :
  (forall (width height : num) (content : string),
     attribute "width" (svg_text width height content) = Some (format width)
     /\ attribute "height" (svg_text width height content) = Some (format height)
     /\ attribute "viewBox" (svg_text width height content)
        = Some ("0 0 " +:+ format width +:+ " " +:+ format height))
  /\ Forall2 (fun d frame =>
                doc_text d = svg_text (PyInt (fst frame)) (PyInt (snd frame))
                                      (body_of (doc_text d)))
             documents asset_frames.
Proof.
  split; [exact svg_text_attributes |].
  apply (Forall2_of_forallb _
           (fun d frame =>
              String.eqb (doc_text d)
                (svg_text (PyInt (fst frame)) (PyInt (snd frame))
                          (body_of (doc_text d))))).
  - intros d frame H. now apply String.eqb_eq in H.
  - vm_compute. reflexivity.
  - vm_compute. reflexivity.
Qed.

(** ** The wordmark *)

Lemma path_d_contour s x y pts :
  usable pts = true -> representable x = true -> representable y = true ->
  path_d pts (PyFloat s) x y = Ok (contour s x y pts).
Proof.
  unfold usable. intros Hu Hx Hy. apply andb_true_iff in Hu as [Hp Hne].
  destruct pts as [|p pts]; [discriminate Hne |].
  exact (path_d_trace s x y p pts Hp Hx Hy).
Qed.

Lemma contour_closed s x y pts :
  usable pts = true -> ends_with " Z" (contour s x y pts) = true.
Proof.
  unfold usable, contour. intros Hu. apply andb_true_iff in Hu as [_ Hne].
  destruct pts as [|p pts]; [discriminate Hne |].
  cbn [map]. rewrite path_text_trace, <- append_assoc. apply ends_with_app.
Qed.

Lemma add_subpath_contour d s x y pts :
  usable pts = true -> representable x = true -> representable y = true ->
  add_subpath d pts (PyFloat s) x y = Ok (d +:+ " " +:+ contour s x y pts).
Proof.
  unfold usable. intros Hu Hx Hy. apply andb_true_iff in Hu as [Hp Hne].
  destruct pts as [|p pts]; [discriminate Hne |].
  unfold add_subpath, contour.
  rewrite (coords_representable s x y _ Hp Hx Hy). cbn [rbind].
  cbn [map]. rewrite path_text_trace. cbn [map]. rewrite !map_map. reflexivity.
Qed.

Lemma advance_pen s x w :
  representable x = true -> representable (PyInt w) = true ->
  advance x (PyFloat s) w = Ok (pen s x w).
Proof.
  intros Hx Hw. unfold advance, pen.
  rewrite (mul_by_float _ s Hw). cbn [rbind].
  unfold add. destruct x as [z|f].
  - cbn [rbind]. rewrite (to_float_representable _ Hx). reflexivity.
  - reflexivity.
Qed.

Lemma contains_app_r (pat a b : string) :
  contains pat b = true -> contains pat (a +:+ b) = true.
Proof.
  unfold contains. intros Hb. induction a as [|c a' IH]; [exact Hb |].
  cbn [String.append find_after].
  destruct (strip_prefix pat (String c (a' +:+ b))); [reflexivity | exact IH].
Qed.

Lemma polygon_literals_usable :
  forallb usable polygon_literals = true.
Proof. vm_compute. reflexivity. Qed.

Ltac side := first [assumption | reflexivity].

(** The wordmark for any float scale: seven path elements, the pen moved
    by each letter's advance. *)
Lemma get_wordmark_paths_layout (scale : float) (start_x start_y : num) :
  representable start_x = true -> representable start_y = true ->
  let at_ := contour scale in
  let x1 := pen scale start_x 120 in
  let x2 := pen scale x1 100 in
  let x3 := pen scale x2 100 in
  let x4 := pen scale x3 100 in
  let x5 := pen scale x4 100 in
  let x6 := pen scale x5 120 in
  let x7 := pen scale x6 40 in
  let x8 := pen scale x7 120 in
  get_wordmark_paths (PyFloat scale) start_x start_y
  = Ok (path_element (at_ start_x start_y n_points)
        +:+ path_element (at_ x1 start_y pts_e)
        +:+ path_element_evenodd
              (at_ x2 start_y pts_b_out +:+ " " +:+ at_ x2 start_y pts_b_in1
               +:+ " " +:+ at_ x2 start_y pts_b_in2)
        +:+ path_element (at_ x3 start_y pts_u)
        +:+ path_element (at_ x4 start_y pts_l)
        +:+ path_element_evenodd
              (at_ x5 start_y pts_a_out +:+ " " +:+ at_ x5 start_y pts_a_in)
        +:+ path_element (at_ x7 start_y pts_x),
        x8).
Proof.
  intros Hx Hy. cbv zeta.
  unfold get_wordmark_paths, get_n_mark_path. cbv zeta.
  rewrite path_d_contour by side. cbn [rbind].
  rewrite advance_pen by side. cbn [rbind].
  rewrite path_d_contour by side. cbn [rbind].
  rewrite advance_pen by side. cbn [rbind].
  rewrite path_d_contour by side. cbn [rbind].
  rewrite add_subpath_contour by side. cbn [rbind].
  rewrite add_subpath_contour by side. cbn [rbind].
  rewrite advance_pen by side. cbn [rbind].
  rewrite path_d_contour by side. cbn [rbind].
  rewrite advance_pen by side. cbn [rbind].
  rewrite path_d_contour by side. cbn [rbind].
  rewrite advance_pen by side. cbn [rbind].
  rewrite path_d_contour by side. cbn [rbind].
  rewrite add_subpath_contour by side. cbn [rbind].
  rewrite advance_pen by side. cbn [rbind].
  rewrite advance_pen by side. cbn [rbind].
  rewrite path_d_contour by side. cbn [rbind].
  rewrite advance_pen by side. cbn [rbind].
  cbn [app join]. rewrite !append_assoc. reflexivity.
Qed.

(** C5: every polygon literal of the program has distinct first and last
    points, and the text traced from it ends with the close instruction;
    the wordmark puts the outer and inner contours of B (three) and of A
    (two) as subpaths of one path element each, and that element carries
    the even-odd fill rule. *)
Theorem polygons_closed_and_holes_evenodd
    (scale : float) (start_x start_y : num) :
  representable start_x = true ->
  representable start_y = true ->
  Forall (fun pts => (2 <= length pts)%nat /\ head pts <> last pts) polygon_literals
  /\ (forall pts x y,
        pts ∈ polygon_literals ->
        representable x = true -> representable y = true ->
        path_d pts (PyFloat scale) x y = Ok (contour scale x y pts)
        /\ ends_with " Z" (contour scale x y pts) = true)
  /\ get_n_mark_path (PyFloat scale) start_x start_y
     = Ok (contour scale start_x start_y n_points)
  /\ (let at_ := contour scale in
      let x1 := pen scale start_x 120 in
      let x2 := pen scale x1 100 in
      let x3 := pen scale x2 100 in
      let x4 := pen scale x3 100 in
      let x5 := pen scale x4 100 in
      let x6 := pen scale x5 120 in
      let x7 := pen scale x6 40 in
      let x8 := pen scale x7 120 in
      get_wordmark_paths (PyFloat scale) start_x start_y
      = Ok (path_element (at_ start_x start_y n_points)
            +:+ path_element (at_ x1 start_y pts_e)
            +:+ path_element_evenodd
                  (at_ x2 start_y pts_b_out +:+ " " +:+ at_ x2 start_y pts_b_in1
                   +:+ " " +:+ at_ x2 start_y pts_b_in2)
            +:+ path_element (at_ x3 start_y pts_u)
            +:+ path_element (at_ x4 start_y pts_l)
            +:+ path_element_evenodd
                  (at_ x5 start_y pts_a_out +:+ " " +:+ at_ x5 start_y pts_a_in)
            +:+ path_element (at_ x7 start_y pts_x),
            x8))
  /\ (forall d,
        contains (dq "fill-rule='evenodd'") (path_element_evenodd d) = true
        /\ starts_with (dq "<path d='") (path_element_evenodd d) = true).
Proof.
  intros Hx Hy.
  split.
  { unfold polygon_literals.
    repeat (apply Forall_cons; split;
            [split; [cbn; lia | vm_compute; discriminate] |]).
    apply Forall_nil_2. }
  split.
  { intros pts x y Hin Hrx Hry.
    assert (Hu : usable pts = true).
    { pose proof polygon_literals_usable as H.
      rewrite forallb_forall in H. apply H. now apply list_elem_of_In. }
    split; [now apply path_d_contour | now apply contour_closed]. }
  split.
  { unfold get_n_mark_path. now apply path_d_contour. }
  split.
  { exact (get_wordmark_paths_layout scale start_x start_y Hx Hy). }
  intros d. split.
  - unfold path_element_evenodd.
    apply contains_app_r, contains_app_r. reflexivity.
  - apply starts_with_app.
Qed.

Lemma polygons_closed_and_holes_evenodd_witness :
  Forall (fun pts => (2 <= length pts)%nat /\ head pts <> last pts) polygon_literals
  /\ exists text width,
       get_wordmark_paths f0_5 (PyInt 70) (PyInt 15) = Ok (text, width)
       /\ count_chars (fun c => Ascii.eqb c "Z") text = 10%nat
       /\ width = PyFloat (float_value (PyInt 470)).
Proof.
  destruct (polygons_closed_and_holes_evenodd (float_lit 5 10) (PyInt 70) (PyInt 15))
    as (H1 & _ & _ & H4 & _).
  - reflexivity.
  - reflexivity.
  - split; [exact H1 |].
    eexists _, _. split; [exact H4 |]. split; vm_compute; reflexivity.
Defined.

(** * Further properties *)

(** ** Console output and files outside the assets *)

Lemma documents_lines : map doc_line documents = created_lines.
Proof. vm_compute. reflexivity. Qed.

(** X1: a run that goes through prints, after what was printed before,
    exactly one line ["Created <name>"] for each of the nine files, in the
    order in which the files are written. *)
Theorem created_lines_printed (w w' : world) :
  run main w = (Ok tt, w') ->
  stdout w' = stdout w ++ created_lines
  /\ length created_lines = length asset_paths.
Proof.
  intros Hrun. destruct (run_main_ok w w' Hrun) as (w1 & -> & _ & _ & _ & _ & Hout & _).
  split; [| reflexivity].
  cbn [after_docs stdout]. now rewrite Hout, documents_lines.
Qed.

Lemma created_lines_printed_witness :
  stdout populated_outcome = stdout populated_world ++ created_lines
  /\ length created_lines = length asset_paths.
Proof.
  apply (created_lines_printed populated_world populated_outcome).
  vm_compute. reflexivity.
Defined.

Lemma write_files_other l (m : gmap string string) p :
  p ∉ map doc_path l -> write_files l m !! p = m !! p.
Proof.
  intros Hp. rewrite lookup_write_files. now rewrite (last_text_not_in _ _ Hp).
Qed.

(** What a run of the writes leaves alone, whatever its outcome. *)
Lemma run_write_docs_frame D l w :
  in_dir D l = true ->
  let w' := snd (run (write_docs l) w) in
  (forall p, p ∉ map doc_path l -> files w' !! p = files w !! p)
  /\ dirs w' = dirs w
  /\ unwritable w' = unwritable w
  /\ no_space w' = no_space w.
Proof.
  intros HD.
  destruct (run_write_docs_cases D l w HD)
    as [[_ Hok] | (done & d & rest & e & w0 & Hsplit & _ & _ & Herr & Hat)].
  - rewrite Hok. cbn [snd after_docs files dirs unwritable no_space].
    split; [| now repeat split]. intros p Hp. now apply write_files_other.
  - rewrite Herr. cbn [snd].
    assert (Hsub : forall p, p ∉ map doc_path l ->
              (p ∉ map doc_path done) /\ p <> doc_path d).
    { intros p Hp. rewrite Hsplit, map_app in Hp. cbn [map] in Hp.
      rewrite elem_of_app, elem_of_cons in Hp. split; intros H; apply Hp; tauto. }
    destruct Hat as [[_ ->] | [_ ->]];
      cbn [log set_files after_docs files dirs unwritable no_space].
    + split; [| now repeat split]. intros p Hp.
      apply write_files_other. now apply Hsub.
    + split; [| now repeat split]. intros p Hp.
      destruct (Hsub p Hp) as [Hdone Hne].
      rewrite lookup_insert_ne by congruence. now apply write_files_other.
Qed.

(** X2: whatever the outcome of a run, it touches nothing but its own
    files: every path other than the nine asset paths keeps its file (or
    stays absent), no directory disappears and none but the output
    directory appears. *)
Theorem foreign_files_untouched (w : world) (p : string) :
  p ∉ asset_paths ->
  files (snd (run main w)) !! p = files w !! p
  /\ dirs w ⊆ dirs (snd (run main w))
  /\ dirs (snd (run main w)) ⊆ {[OUTPUT_DIR]} ∪ dirs w.
Proof.
  intros Hp. rewrite <- documents_paths in Hp.
  rewrite run_main.
  destruct (sys_exists w OUTPUT_DIR).
  - destruct (run_write_docs_frame OUTPUT_DIR documents
                (log (SysExists OUTPUT_DIR) w) documents_in_dir) as (Hf & Hd & _).
    rewrite (Hf p Hp), Hd. cbn [log files dirs].
    split; [reflexivity |]. split; [reflexivity |]. apply union_subseteq_r.
  - destruct (bool_decide (OUTPUT_DIR ∈ unwritable w)).
    + cbn [snd log files dirs].
      split; [reflexivity |]. split; [reflexivity |]. apply union_subseteq_r.
    + destruct (run_write_docs_frame OUTPUT_DIR documents
                  (set_dirs (log (SysMakedirs OUTPUT_DIR) (log (SysExists OUTPUT_DIR) w))
                            ({[OUTPUT_DIR]} ∪ dirs w)) documents_in_dir) as (Hf & Hd & _).
      rewrite (Hf p Hp), Hd. cbn [set_dirs log files dirs].
      split; [reflexivity |]. split; [apply union_subseteq_r | reflexivity].
Qed.

Lemma foreign_files_untouched_witness :
  files populated_outcome !! "nebula-x-assets/notes.txt" = Some "keep"
  /\ dirs populated_world ⊆ dirs populated_outcome
  /\ dirs populated_outcome ⊆ {[OUTPUT_DIR]} ∪ dirs populated_world.
Proof.
  destruct (foreign_files_untouched populated_world "nebula-x-assets/notes.txt")
    as (Hf & Hd1 & Hd2).
  - apply (bool_decide_unpack _). vm_compute. reflexivity.
  - split; [| split; [exact Hd1 | exact Hd2]].
    unfold populated_outcome. rewrite Hf. vm_compute. reflexivity.
Defined.

(** ** The directory step and single failures *)

Lemma documents_head :
  exists d l, documents = d :: l
              /\ doc_path d = os_path_join OUTPUT_DIR "nebula-x-mark.svg"
              /\ dirname (doc_path d) = OUTPUT_DIR.
Proof.
  destruct documents_first as (d & l & E & Hdir).
  exists d, l. split; [exact E |]. split; [| exact Hdir].
  pose proof documents_paths as H. rewrite E in H. cbn [map] in H.
  unfold asset_paths, asset_names in H. cbn [map] in H.
  now injection H.
Qed.

(** X3: when the name of the output directory is taken by a plain file,
    the script does not call [makedirs] (the check is [os.path.exists]);
    the first [open] raises [NotADirectoryError], and nothing is written or
    printed. *)
Theorem output_dir_is_a_file (w : world) :
  is_file w OUTPUT_DIR = true ->
  run main w
  = (Err (NotADirectoryError (os_path_join OUTPUT_DIR "nebula-x-mark.svg")),
     log (SysOpen (os_path_join OUTPUT_DIR "nebula-x-mark.svg"))
         (log (SysExists OUTPUT_DIR) w)).
Proof.
  intros Hfile. rewrite run_main. unfold sys_exists. rewrite Hfile, orb_true_r.
  destruct documents_head as (d & l & -> & Hp & Hdir).
  rewrite run_write_docs_cons. unfold sys_open. rewrite Hdir, Hp.
  change (is_file (log _ (log _ w)) OUTPUT_DIR) with (is_file w OUTPUT_DIR).
  rewrite Hfile. reflexivity.
Qed.

Lemma output_dir_is_a_file_witness :
  run main blocked_world
  = (Err (NotADirectoryError (os_path_join OUTPUT_DIR "nebula-x-mark.svg")),
     log (SysOpen (os_path_join OUTPUT_DIR "nebula-x-mark.svg"))
         (log (SysExists OUTPUT_DIR) blocked_world)).
Proof. apply (output_dir_is_a_file blocked_world). vm_compute. reflexivity. Defined.

(** X4: when the output directory is absent and may not be created,
    [os.makedirs] raises [PermissionError] for it and the run ends there:
    no file is opened, nothing is printed. *)
Theorem output_dir_not_creatable (w : world) :
  sys_exists w OUTPUT_DIR = false ->
  OUTPUT_DIR ∈ unwritable w ->
  run main w
  = (Err (PermissionError OUTPUT_DIR),
     log (SysMakedirs OUTPUT_DIR) (log (SysExists OUTPUT_DIR) w)).
Proof.
  intros Hex Hun. rewrite run_main, Hex.
  now rewrite (bool_decide_eq_true_2 _ Hun).
Qed.

Lemma output_dir_not_creatable_witness :
  run main locked_world
  = (Err (PermissionError OUTPUT_DIR),
     log (SysMakedirs OUTPUT_DIR) (log (SysExists OUTPUT_DIR) locked_world)).
Proof.
  apply (output_dir_not_creatable locked_world).
  - vm_compute. reflexivity.
  - apply (bool_decide_unpack _). vm_compute. reflexivity.
Defined.

Lemma sys_open_error w p e :
  sys_open w p = Err e ->
  e = NotADirectoryError p \/ e = FileNotFoundError p
  \/ e = IsADirectoryError p \/ e = PermissionError p.
Proof.
  unfold sys_open.
  repeat match goal with
         | |- context [if ?b then _ else _] => destruct b
         end; intros H; try discriminate H; injection H as <-; tauto.
Qed.

(** How a run of the writes can fail, with the world it leaves. *)
Lemma write_docs_failed_at (l : list document) (D : string) (w1 w' : world) (e : exn) :
  in_dir D l = true ->
  NoDup (map doc_path l) ->
  run (write_docs l) w1 = (Err e, w') ->
  exists done d rest,
    l = done ++ d :: rest
    /\ (doc_path d ∉ map doc_path done)
    /\ failed_at (after_docs w1 done) d e w'.
Proof.
  intros HD Hnd Hrun.
  destruct (run_write_docs_cases D l w1 HD)
    as [[_ Hok] | (done & d & rest & e0 & w0 & Hsplit & _ & _ & Herr & Hat)].
  { rewrite Hok in Hrun. discriminate Hrun. }
  rewrite Herr in Hrun. injection Hrun as -> ->.
  exists done, d, rest. split; [exact Hsplit |]. split; [| exact Hat].
  rewrite Hsplit, map_app in Hnd. cbn [map] in Hnd.
  apply NoDup_app in Hnd as (_ & Hdisj & _).
  intros Hin. apply (Hdisj _ Hin). apply elem_of_cons. now left.
Qed.

Lemma main_failed_at (w w' : world) (e : exn) :
  run main w = (Err e, w') ->
  (e = PermissionError OUTPUT_DIR /\ files w' = files w)
  \/ (exists w1 done d rest,
        files w1 = files w
        /\ documents = done ++ d :: rest
        /\ (doc_path d ∉ map doc_path done)
        /\ failed_at (after_docs w1 done) d e w').
Proof.
  rewrite run_main. intros Hrun.
  destruct (sys_exists w OUTPUT_DIR).
  - right.
    destruct (write_docs_failed_at documents OUTPUT_DIR _ _ _
                documents_in_dir documents_nodup Hrun) as (done & d & rest & H).
    eexists _, done, d, rest. split; [| exact H]. reflexivity.
  - destruct (bool_decide (OUTPUT_DIR ∈ unwritable w)).
    + left. injection Hrun as <- <-. now split.
    + right.
      destruct (write_docs_failed_at documents OUTPUT_DIR _ _ _
                  documents_in_dir documents_nodup Hrun) as (done & d & rest & H).
      eexists _, done, d, rest. split; [| exact H]. reflexivity.
Qed.



(** X6: a refused [open] costs nothing: when the run ends with a
    [PermissionError] for a path, what was at that path before the run is
    still there. *)
Theorem refused_open_keeps_file (w w' : world) (p : string) :
  run main w = (Err (PermissionError p), w') ->
  files w' !! p = files w !! p.
Proof.
  intros Hrun.
  destruct (main_failed_at w w' _ Hrun)
    as [[_ ->] | (w1 & done & d & rest & Hfiles & _ & Hfresh & Hat)]; [reflexivity |].
  destruct Hat as [[Hopen ->] | [He _]]; [| discriminate He].
  apply sys_open_error in Hopen.
  destruct Hopen as [H|[H|[H|H]]]; try discriminate H. injection H as ->.
  cbn [log after_docs files]. rewrite write_files_other by exact Hfresh.
  now rewrite Hfiles.
Qed.

Lemma refused_open_keeps_file_witness :
  files protected_outcome !! "nebula-x-assets/nebula-x-wordmark.svg"
  = files protected_world !! "nebula-x-assets/nebula-x-wordmark.svg".
Proof.
  apply (refused_open_keeps_file protected_world protected_outcome).
  vm_compute. reflexivity.
Defined.

(** ** [create_svg] on its own *)









(** ** The document body *)

Lemma string_length_app (a b : string) :
  String.length (a +:+ b) = (String.length a + String.length b)%nat.
Proof. induction a as [|c a' IH]; cbn [String.append String.length]; [reflexivity | now rewrite IH]. Qed.

Lemma take_chars_app (a b : string) :
  take_chars (String.length a) (a +:+ b) = a.
Proof.
  induction a as [|c a' IH]; cbn [String.append String.length take_chars].
  - now destruct b.
  - now rewrite IH.
Qed.

Lemma num_char_not_newline c :
  num_char c = true -> negb (Ascii.eqb newline c) = true.
Proof.
  destruct c as [[] [] [] [] [] [] [] []]; vm_compute; intros H;
    first [discriminate H | reflexivity].
Qed.

Lemma format_no_newline v :
  all_chars (fun x => negb (Ascii.eqb newline x)) (format v) = true.
Proof.
  apply (all_chars_weaken num_char); [| apply all_chars_format].
  exact num_char_not_newline.
Qed.

(** X9: the content given to [create_svg] can be read back from the
    document: it is what stands between the first line and the closing
    ["</svg>"] line, for any width, height and content (a content with line
    breaks or tags of its own included). *)
Theorem svg_text_body (width height : num) (content : string) :
  body_of (svg_text width height content) = content
  /\ ends_with (nl +:+ "</svg>") (svg_text width height content) = true.
Proof.
  split.
  - unfold body_of, svg_text.
    pose proof (format_no_newline width) as Wn.
    pose proof (format_no_newline height) as Hn.
    set (W := format width) in *. set (H := format height) in *.
    set (r := content +:+ nl +:+ "</svg>").
    change (find_after nl (dq "<svg width='" +:+ W +:+ dq "' height='" +:+ H
              +:+ dq "' viewBox='0 0 " +:+ W +:+ " " +:+ H
              +:+ dq "' xmlns='http://www.w3.org/2000/svg'>" +:+ nl +:+ r))
      with (find_after nl (W +:+ dq "' height='" +:+ H
              +:+ dq "' viewBox='0 0 " +:+ W +:+ " " +:+ H
              +:+ dq "' xmlns='http://www.w3.org/2000/svg'>" +:+ nl +:+ r)).
    rewrite find_after_skip by exact Wn.
    change (find_after nl (dq "' height='" +:+ H
              +:+ dq "' viewBox='0 0 " +:+ W +:+ " " +:+ H
              +:+ dq "' xmlns='http://www.w3.org/2000/svg'>" +:+ nl +:+ r))
      with (find_after nl (H
              +:+ dq "' viewBox='0 0 " +:+ W +:+ " " +:+ H
              +:+ dq "' xmlns='http://www.w3.org/2000/svg'>" +:+ nl +:+ r)).
    rewrite find_after_skip by exact Hn.
    change (find_after nl (dq "' viewBox='0 0 " +:+ W +:+ " " +:+ H
              +:+ dq "' xmlns='http://www.w3.org/2000/svg'>" +:+ nl +:+ r))
      with (find_after nl (W +:+ " " +:+ H
              +:+ dq "' xmlns='http://www.w3.org/2000/svg'>" +:+ nl +:+ r)).
    rewrite find_after_skip by exact Wn.
    change (find_after nl (" " +:+ H
              +:+ dq "' xmlns='http://www.w3.org/2000/svg'>" +:+ nl +:+ r))
      with (find_after nl (H
              +:+ dq "' xmlns='http://www.w3.org/2000/svg'>" +:+ nl +:+ r)).
    rewrite find_after_skip by exact Hn.
    change (find_after nl (dq "' xmlns='http://www.w3.org/2000/svg'>" +:+ nl +:+ r))
      with (Some r).
    cbv beta iota. unfold r.
    rewrite string_length_app.
    change (String.length (nl +:+ "</svg>")) with 7%nat.
    rewrite Nat.add_sub. apply take_chars_app.
  - unfold svg_text. set (closing := nl +:+ "</svg>").
    repeat rewrite <- append_assoc. apply ends_with_app.
Qed.

(** ** Reading a path text back *)

Lemma split_on_plain c (a : string) :
  all_chars (fun x => negb (Ascii.eqb x c)) a = true ->
  split_on c a = [a].
Proof.
  induction a as [|x a' IH]; [reflexivity |].
  cbn [all_chars split_on]. intros H. apply andb_true_iff in H as [Hx Ha].
  apply negb_true_iff in Hx. now rewrite Hx, (IH Ha).
Qed.

Lemma split_on_app c (a r : string) :
  all_chars (fun x => negb (Ascii.eqb x c)) a = true ->
  split_on c (a +:+ String c r) = a :: split_on c r.
Proof.
  induction a as [|x a' IH]; intros H.
  - cbn [String.append split_on]. now rewrite Ascii.eqb_refl.
  - cbn [all_chars] in H. apply andb_true_iff in H as [Hx Ha].
    apply negb_true_iff in Hx.
    cbn [String.append split_on]. now rewrite Hx, (IH Ha).
Qed.

Lemma num_char_not_separator c :
  num_char c = true ->
  negb (Ascii.eqb c " ") = true /\ negb (Ascii.eqb c ",") = true.
Proof.
  destruct c as [[] [] [] [] [] [] [] []]; vm_compute; intros H;
    first [discriminate H | split; reflexivity].
Qed.

Lemma repr_float_no_space f :
  all_chars (fun x => negb (Ascii.eqb x " ")) (repr_float f) = true.
Proof.
  apply (all_chars_weaken num_char); [| apply all_chars_repr_float].
  intros c Hc. now destruct (num_char_not_separator c Hc).
Qed.

Lemma repr_float_no_comma f :
  all_chars (fun x => negb (Ascii.eqb x ",")) (repr_float f) = true.
Proof.
  apply (all_chars_weaken num_char); [| apply all_chars_repr_float].
  intros c Hc. now destruct (num_char_not_separator c Hc).
Qed.

Lemma coord_text_no_space tp :
  all_chars (fun x => negb (Ascii.eqb x " ")) (coord_text tp) = true.
Proof.
  unfold coord_text. rewrite !all_chars_app, !repr_float_no_space. reflexivity.
Qed.

Lemma split_path_tail (c : string) (cs : list string) :
  all_chars (fun x => negb (Ascii.eqb x " ")) c = true ->
  forallb (all_chars (fun x => negb (Ascii.eqb x " "))) cs = true ->
  split_on " " (join " L " (c :: cs) +:+ " Z")
  = c :: flat_map (fun q => ["L"; q]) cs ++ ["Z"].
Proof.
  revert c. induction cs as [|q cs IH]; intros c Hc Hcs.
  - cbn [join flat_map app].
    change (c +:+ " Z") with (c +:+ String " " "Z").
    now rewrite split_on_app.
  - cbn [forallb] in Hcs. apply andb_true_iff in Hcs as [Hq Hcs].
    rewrite join_cons, !append_assoc.
    change (c +:+ " L " +:+ join " L " (q :: cs) +:+ " Z")
      with (c +:+ String " " ("L" +:+ String " " (join " L " (q :: cs) +:+ " Z"))).
    rewrite split_on_app by exact Hc.
    rewrite (split_on_app " " "L") by reflexivity.
    now rewrite (IH q Hq Hcs).
Qed.

Lemma flat_map_pairs {A} (f : A -> string) (l : list A) :
  flat_map (fun q => ["L"; q]) (map f l) = flat_map (fun q => ["L"; f q]) l
  /\ length (flat_map (fun q => ["L"; f q]) l) = (2 * length l)%nat.
Proof.
  induction l as [|a l [IH1 IH2]]; [now split |].
  cbn [map flat_map app length]. rewrite IH1, IH2. split; [reflexivity | lia].
Qed.

(** X10: a path text can be taken apart again.  Split at the spaces, the
    text of the path expression gives the letter M, the first coordinate
    pair, then L and a pair for each further point in order, and Z at the
    end; and each pair, split at its comma, gives the texts of its two
    numbers: no number text contains a space or a comma. *)
Theorem path_text_splits
    (p0 : point) (rest : list point) (scale : float) (offset_x offset_y : num) :
  forallb representable_point (p0 :: rest) = true ->
  representable offset_x = true ->
  representable offset_y = true ->
  exists d,
    path_d (p0 :: rest) (PyFloat scale) offset_x offset_y = Ok d
    /\ split_on " " d
       = path_tokens (map (transformed scale offset_x offset_y) (p0 :: rest))
    /\ length (split_on " " d) = (2 * length (p0 :: rest) + 1)%nat
    /\ (forall p, split_on "," (coord_text (transformed scale offset_x offset_y p))
                  = [repr_float (fst (transformed scale offset_x offset_y p));
                     repr_float (snd (transformed scale offset_x offset_y p))]).
Proof.
  intros Hpts Hx Hy. eexists.
  split; [exact (path_d_trace scale offset_x offset_y p0 rest Hpts Hx Hy) |].
  set (tf := transformed scale offset_x offset_y).
  assert (Hsplit : split_on " " (path_text (trace_polygon (map tf (p0 :: rest))))
                   = path_tokens (map tf (p0 :: rest))).
  { cbn [map]. rewrite path_text_trace. cbn [map path_tokens].
    change ("M " +:+ join " L " (coord_text (tf p0) :: map coord_text (map tf rest)) +:+ " Z")
      with ("M" +:+ String " "
              (join " L " (coord_text (tf p0) :: map coord_text (map tf rest)) +:+ " Z")).
    rewrite split_on_app by reflexivity.
    rewrite split_path_tail.
    - now rewrite (proj1 (flat_map_pairs coord_text (map tf rest))).
    - apply coord_text_no_space.
    - rewrite forallb_forall. intros c Hc. apply in_map_iff in Hc as (tp & <- & _).
      apply coord_text_no_space. }
  split; [exact Hsplit |]. split.
  - rewrite Hsplit. cbn [map path_tokens length].
    rewrite length_app, (proj2 (flat_map_pairs coord_text (map tf rest))).
    cbn [length]. rewrite !length_map. lia.
  - intros p. unfold coord_text.
    change (repr_float (fst (tf p)) +:+ "," +:+ repr_float (snd (tf p)))
      with (repr_float (fst (tf p)) +:+ String "," (repr_float (snd (tf p)))).
    rewrite split_on_app by apply repr_float_no_comma.
    now rewrite split_on_plain by apply repr_float_no_comma.
Qed.

Lemma path_text_splits_witness :
  exists d,
    path_d [pt 0 100; pt 0 0; pt 30 0] f0_8 (PyInt 10) (PyInt 10) = Ok d
    /\ split_on " " d = ["M"; "10.0,90.0"; "L"; "10.0,10.0"; "L"; "34.0,10.0"; "Z"].
Proof.
  destruct (path_text_splits (pt 0 100) [pt 0 0; pt 30 0] (float_lit 8 10)
              (PyInt 10) (PyInt 10)) as (d & Hd & Hs & _).
  - reflexivity.
  - reflexivity.
  - reflexivity.
  - exists d. split; [exact Hd |]. rewrite Hs. vm_compute. reflexivity.
Defined.

(** ** Integer and out-of-range arguments *)


Example integer_path_large :
  path_d [pt 1 (-1)] (PyInt (10 ^ 400)) (PyInt 7) (PyInt 0)
  = Ok ("M 1" +:+ zeros 399 +:+ "7,-1" +:+ zeros 400 +:+ " Z").
Proof. vm_compute. reflexivity. Qed.

Lemma to_float_unrepresentable v :
  representable v = false -> to_float v = Err OverflowError.
Proof.
  destruct v as [z|f]; [| discriminate].
  unfold representable, to_float, float_of_int.
  destruct (binary_normalize prec emax z 0 false); intros H;
    try discriminate H; reflexivity.
Qed.

Lemma add_float_unrepresentable a b :
  representable b = false -> add (PyFloat a) b = Err OverflowError.
Proof.
  intros Hb. unfold add. cbn [to_float rbind].
  destruct b as [z|f];
    [rewrite (to_float_unrepresentable _ Hb); reflexivity | discriminate Hb].
Qed.

(** X12: with a float scale, an integer offset too large for a float makes
    [get_n_mark_path] raise [OverflowError] (the conversion of the offset
    in [x*scale + offset] fails); no text is returned. *)
Theorem unrepresentable_offset_overflows (scale : float) (offset_x offset_y : num) :
  representable offset_x = false \/ representable offset_y = false ->
  get_n_mark_path (PyFloat scale) offset_x offset_y = Err OverflowError.
Proof.
  intros H. unfold get_n_mark_path, path_d, coords, n_points.
  cbn [mapM].
  assert (Hc : coord (PyFloat scale) offset_x offset_y (pt 0 100) = Err OverflowError).
  { unfold coord, pt. cbn [fst snd].
    rewrite (mul_by_float (PyInt 0) scale eq_refl). cbn [rbind].
    destruct (representable offset_x) eqn:Hx.
    - destruct H as [H|H]; [discriminate H |].
      rewrite (add_to_float _ _ Hx). cbn [rbind].
      rewrite (mul_by_float (PyInt 100) scale eq_refl). cbn [rbind].
      now rewrite (add_float_unrepresentable _ _ H).
    - now rewrite (add_float_unrepresentable _ _ Hx). }
  now rewrite Hc.
Qed.

Lemma unrepresentable_offset_overflows_witness :
  get_n_mark_path f0_8 (PyInt (2 ^ 1024)) (PyInt 10) = Err OverflowError.
Proof.
  apply (unrepresentable_offset_overflows (float_lit 8 10) (PyInt (2 ^ 1024)) (PyInt 10)).
  left. vm_compute. reflexivity.
Defined.

(** ** The palette *)

Lemma assoc_missing k (d : list (string * string)) :
  k ∉ map fst d -> assoc k d = None.
Proof.
  induction d as [|[k' v] d IH]; [reflexivity |].
  cbn [map fst assoc]. intros H. apply not_elem_of_cons in H as [Hne Hd].
  destruct (String.eqb_spec k k'); [contradiction | now apply IH].
Qed.

(** X13: [COLORS[k]] raises [KeyError] for every name that is not one of
    the eight of the palette, and gives each of the eight its own colour
    (no name is entered twice). *)
Theorem color_missing_key (k : string) :
  k ∉ map fst COLORS ->
  color k = Err (KeyError k)
  /\ Forall (fun kv => color (fst kv) = Ok (snd kv)) COLORS
  /\ NoDup (map fst COLORS).
Proof.
  intros Hk. split.
  - unfold color. now rewrite (assoc_missing k COLORS Hk).
  - split.
    + unfold COLORS. repeat (apply Forall_cons; split; [reflexivity |]).
      apply Forall_nil_2.
    + apply (bool_decide_unpack _). vm_compute. reflexivity.
Qed.

Lemma color_missing_key_witness :
  color "Nebula Pink" = Err (KeyError "Nebula Pink")
  /\ Forall (fun kv => color (fst kv) = Ok (snd kv)) COLORS
  /\ NoDup (map fst COLORS).
Proof.
  apply (color_missing_key "Nebula Pink").
  apply (bool_decide_unpack _). vm_compute. reflexivity.
Defined.

(** ** When the run goes through *)

Lemma can_write_in_dir (D : string) (l : list document) (w1 w : world) :
  in_dir D l = true ->
  negb (String.eqb D EmptyString) = true ->
  (forall p, p <> D -> is_dir w1 p = is_dir w p) ->
  files w1 = files w ->
  unwritable w1 = unwritable w ->
  no_space w1 = no_space w ->
  forallb (fun d => can_write w1 (doc_path d)) l
  = (match l with [] => true | _ :: _ => is_dir w1 D && negb (is_file w D) end)
    && forallb (file_free w) (map doc_path l).
Proof.
  intros HD HDne Hdirs Hfiles Hun Hns.
  assert (Hone : forall d, String.eqb (dirname (doc_path d)) D
                           && negb (String.eqb (doc_path d) D) = true ->
            can_write w1 (doc_path d)
            = (is_dir w1 D && negb (is_file w D)) && file_free w (doc_path d)).
  { intros d Hd. apply andb_true_iff in Hd as [Hdn Hne].
    apply String.eqb_eq in Hdn.
    assert (Hp : doc_path d <> D).
    { intros E. rewrite E, String.eqb_refl in Hne. discriminate Hne. }
    unfold can_write, file_free. rewrite Hdn, Hun, Hns, (Hdirs _ Hp).
    apply negb_true_iff in HDne. rewrite HDne. cbn [orb].
    unfold is_file. rewrite Hfiles.
    destruct (files w !! D), (is_dir w1 D), (is_dir w (doc_path d)),
      (bool_decide (doc_path d ∈ unwritable w)),
      (bool_decide (doc_path d ∈ no_space w)); reflexivity. }
  induction l as [|d l IH]; [reflexivity |].
  cbn [in_dir forallb] in HD. apply andb_true_iff in HD as [Hd Hl].
  cbn [forallb map]. rewrite (Hone d Hd), (IH Hl).
  destruct l; cbn [forallb map];
    destruct (is_dir w1 D), (is_file w D), (file_free w (doc_path d));
    cbn [negb andb]; try reflexivity;
    destruct (forallb (file_free w) _); reflexivity.
Qed.

Lemma documents_can_write (w1 w : world) :
  (forall p, p <> OUTPUT_DIR -> is_dir w1 p = is_dir w p) ->
  files w1 = files w ->
  unwritable w1 = unwritable w ->
  no_space w1 = no_space w ->
  forallb (fun d => can_write w1 (doc_path d)) documents
  = (is_dir w1 OUTPUT_DIR && negb (is_file w OUTPUT_DIR))
    && forallb (file_free w) asset_paths.
Proof.
  intros Hd Hf Hu Hn.
  rewrite (can_write_in_dir OUTPUT_DIR documents w1 w documents_in_dir eq_refl Hd Hf Hu Hn).
  rewrite documents_paths.
  destruct documents_first as (d & l & -> & _). reflexivity.
Qed.


Example run_succeeds_examples :
  dir_ready empty_world && forallb (file_free empty_world) asset_paths = true
  /\ dir_ready populated_world && forallb (file_free populated_world) asset_paths = true
  /\ dir_ready blocked_world = false
  /\ dir_ready locked_world = false
  /\ forallb (file_free protected_world) asset_paths = false
  /\ forallb (file_free full_world) asset_paths = false.
Proof. vm_compute. repeat split; reflexivity. Qed.

Lemma doc_calls_no_makedirs p (l : list document) :
  SysMakedirs p ∉ flat_map doc_calls l.
Proof.
  induction l as [|d l IH]; [apply not_elem_of_nil |].
  cbn [flat_map doc_calls app]. rewrite !not_elem_of_cons.
  repeat split; try discriminate. exact IH.
Qed.

(** X15: an output directory that is already there is used as it is: the
    run asks whether it exists and goes on to the files without calling
    [makedirs]; the directories of the world are unchanged. *)
Theorem existing_directory_reused (w : world) :
  is_dir w OUTPUT_DIR = true ->
  is_file w OUTPUT_DIR = false ->
  forallb (file_free w) asset_paths = true ->
  exists w',
    run main w = (Ok tt, w')
    /\ calls w' = calls w ++ SysExists OUTPUT_DIR :: flat_map doc_calls documents
    /\ (SysMakedirs OUTPUT_DIR ∉ flat_map doc_calls documents)
    /\ dirs w' = dirs w.
Proof.
  intros Hd Hf Hfree. rewrite run_main. unfold sys_exists. rewrite Hd. cbn [orb].
  rewrite (run_write_docs_all OUTPUT_DIR documents _ documents_in_dir).
  - eexists. split; [reflexivity |].
    split. { cbn [after_docs calls log]. now rewrite <- app_assoc. }
    split; [apply doc_calls_no_makedirs | reflexivity].
  - rewrite (documents_can_write _ w) by (intros; reflexivity).
    change (is_dir (log _ w) OUTPUT_DIR) with (is_dir w OUTPUT_DIR).
    now rewrite Hd, Hf, Hfree.
Qed.

Lemma existing_directory_reused_witness :
  exists w',
    run main populated_world = (Ok tt, w')
    /\ calls w' = calls populated_world
                  ++ SysExists OUTPUT_DIR :: flat_map doc_calls documents
    /\ (SysMakedirs OUTPUT_DIR ∉ flat_map doc_calls documents)
    /\ dirs w' = dirs populated_world.
Proof.
  apply (existing_directory_reused populated_world); vm_compute; reflexivity.
Defined.

(** ** How the logo documents are put together *)

(** X16: the ornate logos wrap the plain ones.  After a run that goes
    through, the body of each ornate file is ["<g>"], the body of the plain
    logo of the same colour scheme, the same block of accents for both, and
    ["</g>"]; the accents put their first circle at [int(logo_width) - 10],
    which is 460. *)
Theorem ornate_wraps_logo (w w' : world) :
  run main w = (Ok tt, w') ->
  exists light dark blobs,
    files w' !! os_path_join OUTPUT_DIR "nebula-x-logo-light.svg"
      = Some (svg_text (PyInt 470) (PyInt 80) light)
    /\ files w' !! os_path_join OUTPUT_DIR "nebula-x-logo-dark.svg"
       = Some (svg_text (PyInt 470) (PyInt 80) dark)
    /\ files w' !! os_path_join OUTPUT_DIR "nebula-x-logo-ornate-light.svg"
       = Some (svg_text (PyInt 470) (PyInt 80) ("<g>" +:+ light +:+ blobs +:+ "</g>"))
    /\ files w' !! os_path_join OUTPUT_DIR "nebula-x-logo-ornate-dark.svg"
       = Some (svg_text (PyInt 470) (PyInt 80) ("<g>" +:+ dark +:+ blobs +:+ "</g>"))
    /\ blobs = ornate_text (PyInt (470 - 10)) "#F59E0B" "#06B6D4" "#F59E0B"
    /\ light <> dark.
Proof.
  intros Hrun.
  exists (body_of (document_text "nebula-x-logo-light.svg")),
         (body_of (document_text "nebula-x-logo-dark.svg")),
         (ornate_text (PyInt (470 - 10)) "#F59E0B" "#06B6D4" "#F59E0B").
  split; [apply (run_main_ok_last w w' _ _ Hrun); vm_compute; reflexivity |].
  split; [apply (run_main_ok_last w w' _ _ Hrun); vm_compute; reflexivity |].
  split; [apply (run_main_ok_last w w' _ _ Hrun); vm_compute; reflexivity |].
  split; [apply (run_main_ok_last w w' _ _ Hrun); vm_compute; reflexivity |].
  split; [reflexivity |].
  vm_compute. discriminate.
Qed.

Lemma ornate_wraps_logo_witness :
  exists light dark blobs,
    files fresh_outcome !! os_path_join OUTPUT_DIR "nebula-x-logo-light.svg"
      = Some (svg_text (PyInt 470) (PyInt 80) light)
    /\ files fresh_outcome !! os_path_join OUTPUT_DIR "nebula-x-logo-dark.svg"
       = Some (svg_text (PyInt 470) (PyInt 80) dark)
    /\ files fresh_outcome !! os_path_join OUTPUT_DIR "nebula-x-logo-ornate-light.svg"
       = Some (svg_text (PyInt 470) (PyInt 80) ("<g>" +:+ light +:+ blobs +:+ "</g>"))
    /\ files fresh_outcome !! os_path_join OUTPUT_DIR "nebula-x-logo-ornate-dark.svg"
       = Some (svg_text (PyInt 470) (PyInt 80) ("<g>" +:+ dark +:+ blobs +:+ "</g>"))
    /\ blobs = ornate_text (PyInt (470 - 10)) "#F59E0B" "#06B6D4" "#F59E0B"
    /\ light <> dark.
Proof.
  apply (ornate_wraps_logo empty_world fresh_outcome). vm_compute. reflexivity.
Defined.

Lemma last_text_some (l : list document) (p : string) :
  p ∈ map doc_path l -> exists t, last_text p l = Some t.
Proof.
  induction l as [|d l IH]; cbn [map last_text]; intros Hp.
  - now apply elem_of_nil in Hp.
  - destruct (last_text p l) as [t|] eqn:E; [now exists t |].
    apply elem_of_cons in Hp as [->|Hp].
    + rewrite String.eqb_refl. now eexists.
    + destruct (IH Hp) as [t Ht]. discriminate Ht.
Qed.

(** X17: the dark logo declares the gradient twice.  [logo_mark] already
    starts with [defs], and the dark template puts [defs] in front of it
    once more: after a run that goes through, the opening tag of the
    gradient [nebula_gradient] occurs twice in the dark logo and in its
    ornate variant, and once in the light ones, in the mark, the splash and
    the favicon. *)
Theorem dark_logo_declares_gradient_twice (w w' : world) :
  run main w = (Ok tt, w') ->
  (forall name, name ∈ asset_names ->
     files w' !! os_path_join OUTPUT_DIR name = Some (document_text name))
  /\ map (fun name => occurrences gradient_tag (document_text name)) asset_names
     = [1; 1; 0; 1; 2; 1; 2; 0; 1]%nat.
Proof.
  intros Hrun. split; [| vm_compute; reflexivity].
  intros name Hname.
  assert (Hin : os_path_join OUTPUT_DIR name ∈ map doc_path documents).
  { rewrite documents_paths. unfold asset_paths.
    apply list_elem_of_fmap. exists name. split; [reflexivity | exact Hname]. }
  destruct (last_text_some documents _ Hin) as [t Ht].
  unfold document_text. rewrite Ht.
  exact (run_main_ok_last w w' _ _ Hrun Ht).
Qed.

Lemma dark_logo_declares_gradient_twice_witness :
  (forall name, name ∈ asset_names ->
     files populated_outcome !! os_path_join OUTPUT_DIR name = Some (document_text name))
  /\ map (fun name => occurrences gradient_tag (document_text name)) asset_names
     = [1; 1; 0; 1; 2; 1; 2; 0; 1]%nat.
Proof.
  apply (dark_logo_declares_gradient_twice populated_world populated_outcome).
  vm_compute. reflexivity.
Defined.
